(** * Bonferroni.py: mixed ANOVA with gated Bonferroni post-hoc tests

    A shallow embedding of [Bonferroni.py] and the properties of its
    decision logic: the interaction gate, the pairwise comparison matrices,
    the means table, listwise deletion, and the per-variable loop that
    writes the result sheets.

    What the script delegates is an interface: the numerical routines of
    pingouin and the averaging done by pandas ([Pingouin]), Python's
    [str.strip] and [str.lower] ([PyStr]), and the refusals of the Excel
    writer ([ExcelWriter]).  Everything the script itself decides is
    defined here.  Floats are binary64 ([PrimFloat]), the type of a numpy
    float64 and of the literal [0.001]. *)

From Stdlib Require Import Floats Ascii String.
From stdpp Require Import gmap strings list sorting.

Set Warnings "-inexact-float".
Set Default Proof Using "Type*".

Local Open Scope string_scope.

(** ** Exceptions *)

(** A Python exception, by its message. *)
Definition exn := string.

Inductive result (A : Type) : Type :=
| Ok (a : A)
| Raise (e : exn).
Arguments Ok {A} a.
Arguments Raise {A} e.

Definition is_raise {A} (r : result A) : bool :=
  match r with Ok _ => false | Raise _ => true end.

(** [s.values[0]]: the first element, [IndexError] on an empty selection. *)
Definition values0 {A} (s : list A) : result A :=
  match s with
  | x :: _ => Ok x
  | [] => Raise "IndexError"
  end.

(** ** Data frames *)

(** A cell of a frame read from a spreadsheet: a missing value, a string
    (object columns: the labels) or a float64.  A float NaN is pandas'
    missing number. *)
Inductive cell : Type :=
| NA
| Str (s : string)
| Num (x : float).

Definition isna (c : cell) : bool :=
  match c with
  | NA => true
  | Str _ => false
  | Num x => PrimFloat.is_nan x
  end.

(** A row maps column names to cells; a frame is the list of its rows in
    index order.  A column a row lacks reads as missing. *)
Abbreviation Row := (gmap string cell).
Abbreviation DataFrame := (list (gmap string cell)).

Definition at_col (r : Row) (c : string) : cell := default NA (r !! c).

(** [data[[c1, ..., cn]]]: a new frame with exactly the listed columns. *)
Definition select_row (cols : list string) (r : Row) : Row :=
  list_to_map ((λ c, (c, at_col r c)) <$> cols).

Definition select (cols : list string) (data : DataFrame) : DataFrame :=
  select_row cols <$> data.

(** [row.notna().all()] over the columns the row has. *)
Definition row_complete (r : Row) : bool :=
  forallb (λ kv, negb (isna kv.2)) (map_to_list r).

(** [data.dropna()]: drops every row with a missing value in any column. *)
Definition dropna (data : DataFrame) : DataFrame :=
  List.filter row_complete data.

(** [data.dropna(subset=cols)]: only the listed columns are inspected. *)
Definition dropna_subset (cols : list string) (data : DataFrame) : DataFrame :=
  List.filter (λ r, forallb (λ c, negb (isna (at_col r c))) cols) data.

(** ** Label normalisation: [Series.str.strip().str.lower()] *)

(** Python's [str.strip] and [str.lower] on the text of a label, as the
    interpreter provides them for all of Unicode. *)
Class PyStr := {
  py_strip : string → string;
  py_lower : string → string
}.

Definition is_str (c : cell) : bool :=
  match c with
  | Str _ => true
  | _ => false
  end.

(** Whether pandas grants the [.str] accessor on a column.  A column that
    holds a string is an object column and has it, as has a column without
    rows; a column of numbers or of missing values only has a numeric
    dtype, and [.str] raises [AttributeError] on it. *)
Definition str_usable (column : list cell) : bool :=
  match column with
  | [] => true
  | _ => existsb is_str column
  end.

(** The column [col] of a frame, as [data[col]] reads it. *)
Definition column (col : string) (data : DataFrame) : list cell :=
  (λ r, at_col r col) <$> data.

(** Once granted, the accessor works cell by cell: strings are
    transformed, anything else becomes missing. *)
Definition str_strip_lower `{PyStr} (c : cell) : cell :=
  match c with
  | Str s => Str (py_lower (py_strip s))
  | _ => NA
  end.

(** The value [data[col].str.strip().str.lower()] gives to one row,
    stored back under [col]. *)
Definition normalize_col `{PyStr} (col : string) (r : Row) : Row :=
  <[col := str_strip_lower (at_col r col)]> r.

(** ** Levels of a factor *)

(** A level as the script sees it after normalisation: a string, or the
    missing label ([None], pandas' NaN). *)
Abbreviation label := (option string).

Definition as_label (c : cell) : label :=
  match c with
  | Str s => Some s
  | _ => None
  end.

Definition as_float (c : cell) : float :=
  match c with
  | Num x => x
  | _ => PrimFloat.nan
  end.

(** [==] between labels: NaN equals nothing, itself included. *)
Definition label_eq (a b : label) : bool :=
  match a, b with
  | Some x, Some y => bool_decide (x = y)
  | _, _ => false
  end.

(** [!=] is the negation, so [nan != nan] holds. *)
Definition label_ne (a b : label) : bool := negb (label_eq a b).

(** [f'{level}']. *)
Definition fmt (l : label) : string :=
  match l with
  | Some s => s
  | None => "nan"
  end.

(** [Series.unique()]: the distinct values in order of first appearance. *)
Definition unique (l : list label) : list label :=
  reverse (remove_dups (reverse l)).

(** ** Tables of the statistics library *)

(** A row of [pg.mixed_anova]'s result. *)
Record AnovaRow := {
  Source : string;
  DF1 : float;
  DF2 : float;
  F : float;
  a_p_unc : float;
  np2 : float
}.

(** [pg.sphericity]'s result. *)
Record SpherResults := {
  spher : bool;
  W : float;
  chi2 : float;
  dof : float;
  pval : float
}.

(** A row of [pg.pairwise_tests]'s result; the columns the script reads,
    and the test statistic. *)
Record PosthocRow := {
  Contrast : string;
  A : label;
  B : label;
  T : float;
  p_unc : float;
  p_corr : float
}.

(** The columns [['A', 'B', 'p-unc', 'p-corr']]. *)
Record InteractionRow := {
  i_A : label;
  i_B : label;
  i_p_unc : float;
  i_p_corr : float
}.

(** An entry of a comparison matrix: a p-value or the string ['ns']. *)
Inductive pvalue : Type :=
| P (p : float)
| ns.

(** The unstacked means: one row per group, one column per condition. *)
Record MeansTable := {
  index : list string;
  columns : list string;
  cells : list (list float)
}.

(** The statistics the script delegates.  Each pingouin routine may raise. *)
Class Pingouin := {
  (** [pg.sphericity(data, dv=, within=, subject=)] *)
  pg_sphericity : DataFrame → string → string → string → result SpherResults;
  (** [pg.mixed_anova(dv=, within=, between=, subject=, data=, correction=)] *)
  pg_mixed_anova :
    string → string → string → string → DataFrame → string → result (list AnovaRow);
  (** [pg.pairwise_tests(dv=, within=, between=, subject=, data=, padjust=)] *)
  pg_pairwise_tests :
    string → string → string → string → DataFrame → string → result (list PosthocRow);
  (** the average of the non-missing values of a group, at least one *)
  average : list float → float
}.

(** ** The exception monad of the pure routines *)

Global Instance result_ret : MRet result := λ _ a, Ok a.
Global Instance result_bind : MBind result := λ _ _ f m,
  match m with
  | Ok a => f a
  | Raise e => Raise e
  end.

(** ** The script's state *)

(** What [to_excel] hands to the writer. *)
Inductive table : Type :=
| TAnova (t : list AnovaRow)
| TPosthoc (t : list PosthocRow)
| TMatrices (t : gmap label (gmap string pvalue))
| TInteraction (t : list InteractionRow)
| TMeans (t : MeansTable).

(** The lines the script prints. *)
Inductive message : Type :=
| RunningAnova (dv_col : string)
| InteractionNotFound (dv_col : string)
| RunningPosthoc (dv_col : string) (p : float)
| SkippingPosthoc (dv_col : string) (p : float)
| AnalysisComplete.

(** When the Excel writer refuses a sheet.  Given the tables written so
    far, the sheet name and the table, [to_excel_error] is [None] when the
    sheet is written, and otherwise the exception raised together with
    whether the workbook is left with an untitled blank sheet (openpyxl
    creates the sheet before it checks the title, and refuses a title with
    one of the characters \ / * ? : [ ]). *)
Class ExcelWriter := {
  to_excel_error : list (string * table) → string → table → option (exn * bool)
}.

(** The objects the script shares between calls: the frame [df] (every
    [data] parameter is bound to this one object), the workbook of the
    Excel writer, and the console.  Of the workbook, [sheets] is the
    tables the writer has accepted, each with the sheet name given to
    [to_excel], in the order of the writes, and [blanks] is the number of
    blank sheets that refused writes have left. *)
Record state := {
  df : DataFrame;
  sheets : list (string * table);
  stdout : list message;
  blanks : nat
}.

(** Stateful code: a final state always, a value unless an exception was
    raised; the state at a raise is the one reached so far. *)
Definition M (X : Type) : Type := state → result X * state.

Global Instance M_ret : MRet M := λ _ a st, (Ok a, st).
Global Instance M_bind : MBind M := λ _ _ f m st,
  match m st with
  | (Ok a, st') => f a st'
  | (Raise e, st') => (Raise e, st')
  end.

Definition lift {X} (r : result X) : M X := λ st, (r, st).

Definition get_df : M DataFrame := λ st, (Ok (df st), st).

(** An assignment through a reference to the shared frame. *)
Definition update_df (f : DataFrame → DataFrame) : M unit := λ st,
  (Ok (), {| df := f (df st); sheets := sheets st; stdout := stdout st;
             blanks := blanks st |}).

Definition print (m : message) : M unit := λ st,
  (Ok (), {| df := df st; sheets := sheets st; stdout := stdout st ++ [m];
             blanks := blanks st |}).

(** [data[col] = data[col].str.strip().str.lower()]: the accessor is asked
    for first, and nothing is assigned when it raises. *)
Definition assign_normalized `{PyStr} (col : string) : M unit :=
  data ← get_df;
  if str_usable (column col data)
  then update_df (fmap (normalize_col col))
  else lift (Raise "AttributeError").

(** [t.to_excel(writer, sheet_name=name)]: the table becomes the last
    sheet, unless the writer refuses it. *)
Definition to_excel `{ExcelWriter} (name : string) (t : table) : M unit := λ st,
  match to_excel_error (sheets st) name t with
  | None =>
      (Ok (), {| df := df st; sheets := sheets st ++ [(name, t)]; stdout := stdout st;
                 blanks := blanks st |})
  | Some (e, blank_left) =>
      (Raise e, {| df := df st; sheets := sheets st; stdout := stdout st;
                   blanks := blanks st + (if blank_left then 1 else 0) |})
  end.

(** Using a value that is [None] where a table is expected. *)
Definition not_none {X} (o : option X) : M X :=
  match o with
  | Some x => mret x
  | None => lift (Raise "AttributeError")
  end.

(** [for x in xs: body(x)], stopping at the first exception. *)
Fixpoint for_each {X} (xs : list X) (body : X → M unit) : M unit :=
  match xs with
  | [] => mret ()
  | x :: xs' => body x ≫= λ _, for_each xs' body
  end.

(** A workbook without any sheet. *)
Definition book_empty (st : state) : bool :=
  match sheets st, blanks st with
  | [], 0 => true
  | _, _ => false
  end.

(** Leaving the [with pd.ExcelWriter(...)] block saves the workbook, and
    saving a workbook without any sheet raises [IndexError]. *)
Definition close_writer : M unit := λ st,
  if book_empty st then (Raise "IndexError", st) else (Ok (), st).

(** [with ... as writer: body]: the exit runs whether or not the body
    raised, and an exception of the exit replaces that of the body. *)
Definition with_writer (body : M unit) : M unit := λ st,
  match body st with
  | (outcome, st1) =>
      match close_writer st1 with
      | (Raise e, st2) => (Raise e, st2)
      | (Ok _, st2) => (outcome, st2)
      end
  end.

(** ** The comparison matrices *)

(** The boolean mask of [compare_conditions_within_groups] and of
    [compare_groups_within_conditions], for the contrast [kind]. *)
Definition pair_mask (kind : string) (c1 c2 : label) (r : PosthocRow) : bool :=
  bool_decide (Contrast r = kind) &&
  ((label_eq (A r) c1 && label_eq (B r) c2) || (label_eq (A r) c2 && label_eq (B r) c1)).

(** [f'{c1} vs {c2}']. *)
Definition pair_key (c1 c2 : label) : string := fmt c1 +:+ " vs " +:+ fmt c2.

Definition compare_conditions_within_groups
    (posthoc_results : list PosthocRow) (group : label) (conditions : list label)
    : gmap string pvalue :=
  foldl (λ comparisons '(condition1, condition2),
    if label_ne condition1 condition2 then
      let comparison :=
        p_unc <$> List.filter (pair_mask "Condition" condition1 condition2) posthoc_results in
      let p_value := match comparison with x :: _ => P x | [] => ns end in
      <[pair_key condition1 condition2 := p_value]> comparisons
    else comparisons)
  ∅ (list_prod conditions conditions).

Definition compare_groups_within_conditions
    (posthoc_results : list PosthocRow) (condition : label) (groups : list label)
    : gmap string pvalue :=
  foldl (λ comparisons '(group1, group2),
    if label_ne group1 group2 then
      let comparison :=
        p_unc <$> List.filter (pair_mask "Group" group1 group2) posthoc_results in
      let p_value := match comparison with x :: _ => P x | [] => ns end in
      <[pair_key group1 group2 := p_value]> comparisons
    else comparisons)
  ∅ (list_prod groups groups).

Definition compare_interaction (posthoc_results : list PosthocRow) (means : MeansTable)
    : list InteractionRow * MeansTable :=
  let interaction_comparisons :=
    (λ r, {| i_A := A r; i_B := B r; i_p_unc := p_unc r; i_p_corr := p_corr r |}) <$>
    List.filter (λ r, bool_decide (Contrast r = "Condition * Group")) posthoc_results in
  (interaction_comparisons, means).

(** ** The means table *)

(** The sorted distinct values: the order [groupby] and [unstack] give to
    the index levels. *)
Definition sort_unique (l : list string) : list string :=
  merge_sort String.le (remove_dups l).

(** The [groupby] key of a row; rows with a missing key are left out.
    Labels are strings: normalisation leaves nothing else in the two
    label columns. *)
Definition group_key (group_col condition_col : string) (r : Row) : option (string * string) :=
  match as_label (at_col r group_col), as_label (at_col r condition_col) with
  | Some g, Some c => Some (g, c)
  | _, _ => None
  end.

Definition group_values (data : DataFrame) (group_col condition_col dv_col : string)
    (k : string * string) : list float :=
  (λ r, as_float (at_col r dv_col)) <$>
  List.filter (λ r, bool_decide (group_key group_col condition_col r = Some k)) data.

Section script.
Context `{Pingouin} `{PyStr} `{ExcelWriter}.

(** [Series.mean()] of a group: missing values are skipped, and a group
    left with nothing has the mean NaN. *)
Definition skipna_mean (xs : list float) : float :=
  match List.filter (λ x, negb (PrimFloat.is_nan x)) xs with
  | [] => PrimFloat.nan
  | ys => average ys
  end.

(** [data.groupby([group_col, condition_col])[dv_col].mean()]: one entry
    per key that occurs, in sorted order. *)
Definition groupby_mean (data : DataFrame) (group_col condition_col dv_col : string)
    : list ((string * string) * float) :=
  let keys := omap (group_key group_col condition_col) data in
  (λ k, (k, skipna_mean (group_values data group_col condition_col dv_col k))) <$>
  List.filter (λ k, bool_decide (k ∈ keys))
    (list_prod (sort_unique keys.*1) (sort_unique keys.*2)).

(** [Series.unstack()]: the inner level becomes the columns; a
    combination the series lacks is filled with NaN. *)
Definition unstack (s : list ((string * string) * float)) : MeansTable :=
  let idx := sort_unique (s.*1.*1) in
  let cols := sort_unique (s.*1.*2) in
  {| index := idx;
     columns := cols;
     cells := (λ g, (λ c, default PrimFloat.nan
                            ((list_to_map s : gmap (string * string) float) !! (g, c)))
                    <$> cols) <$> idx |}.

Definition calculate_means (data : DataFrame) (group_col condition_col dv_col : string)
    : MeansTable :=
  let means := unstack (groupby_mean data group_col condition_col dv_col) in
  means.

(** ** The ANOVA of one column *)

Definition check_sphericity (data : DataFrame) (id_column within dv : string)
    : result SpherResults :=
  pg_sphericity data dv within id_column.

(** [aov_data] of [run_mixed_anova]: the frame the model is fitted on. *)
Definition aov_data (data : DataFrame) (id_column group_col condition_col dv_col : string)
    : DataFrame :=
  dropna (select [id_column; group_col; condition_col; dv_col] data).

Definition run_mixed_anova (data : DataFrame)
    (id_column group_col condition_col dv_col : string)
    : result (list AnovaRow * SpherResults) :=
  let aov_data := aov_data data id_column group_col condition_col dv_col in
  aov ← pg_mixed_anova dv_col condition_col group_col id_column aov_data "auto";
  sphericity ← check_sphericity aov_data id_column condition_col dv_col;
  mret (aov, sphericity).

(** ** The gated post-hoc tests *)

(** The five values [run_posthoc_tests_if_interaction_significant] returns. *)
Definition posthoc_bundle : Type :=
  option (list PosthocRow) * option (gmap label (gmap string pvalue)) *
  option (gmap label (gmap string pvalue)) * option (list InteractionRow) *
  option MeansTable.

(** [posthoc_data]: the four columns of the (normalised) frame, without
    the rows that lack the dependent variable. *)
Definition posthoc_data (data : DataFrame) (id_column group_col condition_col dv_col : string)
    : DataFrame :=
  dropna_subset [dv_col] (select [id_column; group_col; condition_col; dv_col] data).

(** [data] is the caller's frame itself: the two assignments to
    [data[group_col]] and [data[condition_col]] write to it, one after the
    other, and each can raise. *)
Definition run_posthoc_tests_if_interaction_significant
    (id_column group_col condition_col dv_col : string) (interaction_p_value : float)
    : M posthoc_bundle :=
  if PrimFloat.ltb interaction_p_value 0.001 then
    print (RunningPosthoc dv_col interaction_p_value);;
    assign_normalized group_col;;
    assign_normalized condition_col;;
    data ← get_df;
    let posthoc_data := posthoc_data data id_column group_col condition_col dv_col in
    posthoc_results ←
      lift (pg_pairwise_tests dv_col condition_col group_col id_column
              posthoc_data "bonferroni");
    let means := calculate_means posthoc_data group_col condition_col dv_col in
    let groups := unique ((λ r, as_label (at_col r group_col)) <$> posthoc_data) in
    let conditions := unique ((λ r, as_label (at_col r condition_col)) <$> posthoc_data) in
    let condition_comparisons :=
      foldl (λ acc group,
               <[group := compare_conditions_within_groups posthoc_results group conditions]> acc)
            ∅ groups in
    let group_comparisons :=
      foldl (λ acc condition,
               <[condition := compare_groups_within_conditions posthoc_results condition groups]> acc)
            ∅ conditions in
    let '(interaction_comparisons, means) := compare_interaction posthoc_results means in
    mret (Some posthoc_results, Some condition_comparisons, Some group_comparisons,
          Some interaction_comparisons, Some means)
  else
    print (SkippingPosthoc dv_col interaction_p_value);;
    mret (None, None, None, None, None).

(** ** The loop over the dependent variables *)

(** The body of [for dv_col in rm_columns]; [continue] ends it early. *)
Definition loop_body (dv_col : string) : M unit :=
  print (RunningAnova dv_col);;
  data ← get_df;
  '(mixed_anova, sphericity) ← lift (run_mixed_anova data "ID" "Group" "Condition" dv_col);
  to_excel (dv_col +:+ "_Mixed_ANOVA") (TAnova mixed_anova);;
  if existsb (λ r, bool_decide (Source r = "Interaction")) mixed_anova then
    interaction_p_value ←
      lift (values0 (a_p_unc <$>
              List.filter (λ r, bool_decide (Source r = "Interaction")) mixed_anova));
    '(posthoc_results, condition_comparisons, group_comparisons,
      interaction_comparisons, means) ←
      run_posthoc_tests_if_interaction_significant "ID" "Group" "Condition" dv_col
        interaction_p_value;
    match posthoc_results with
    | Some posthoc_results =>
        to_excel (dv_col +:+ "_Posthoc_Comparisons") (TPosthoc posthoc_results);;
        condition_comparisons ← not_none condition_comparisons;
        to_excel (dv_col +:+ "_Condition_Comparisons") (TMatrices condition_comparisons);;
        group_comparisons ← not_none group_comparisons;
        to_excel (dv_col +:+ "_Group_Comparisons") (TMatrices group_comparisons);;
        interaction_comparisons ← not_none interaction_comparisons;
        to_excel (dv_col +:+ "_Interaction_Comparisons") (TInteraction interaction_comparisons);;
        means ← not_none means;
        to_excel (dv_col +:+ "_Means") (TMeans means)
    | None => mret ()
    end
  else
    print (InteractionNotFound dv_col).

(** The script from the [with] block on; [rm_columns] is [df.columns[3:]].
    The closing line is printed after the block is left. *)
Definition main (rm_columns : list string) : M unit :=
  with_writer (for_each rm_columns loop_body);;
  print AnalysisComplete.

End script.

(** ** The loop shared by the two matrix builders *)

(** The value one iteration stores: the first matching row's [p-unc]. *)
Definition first_match (kind : string) (rows : list PosthocRow) (c1 c2 : label) : pvalue :=
  match p_unc <$> List.filter (pair_mask kind c1 c2) rows with
  | x :: _ => P x
  | [] => ns
  end.

Definition store_pair (kind : string) (rows : list PosthocRow)
    (comparisons : gmap string pvalue) (cs : label * label) : gmap string pvalue :=
  if label_ne cs.1 cs.2
  then <[pair_key cs.1 cs.2 := first_match kind rows cs.1 cs.2]> comparisons
  else comparisons.

(** Both builders are this loop, each for its own contrast. *)
Definition pair_matrix (kind : string) (rows : list PosthocRow) (levels : list label)
    : gmap string pvalue :=
  foldl (store_pair kind rows) ∅ (list_prod levels levels).

(** ** The pieces of a post-hoc run *)

(** The frame after the two label assignments of the post-hoc step. *)
Definition normalized `{PyStr} (group_col condition_col : string) (data : DataFrame)
    : DataFrame :=
  normalize_col condition_col <$> (normalize_col group_col <$> data).

(** The levels [Series.unique()] finds in a column. *)
Definition levels_of (col : string) (data : DataFrame) : list label :=
  unique ((λ r, as_label (at_col r col)) <$> data).

(** A dictionary filled by [for k in keys: d[k] = build(k)]. *)
Definition filled {V} (build : label → V) (keys : list label) : gmap label V :=
  foldl (λ acc k, <[k := build k]> acc) ∅ keys.

(** The state [st] after one more line is printed. *)
Definition said (m : message) (st : state) : state :=
  {| df := df st; sheets := sheets st; stdout := stdout st ++ [m]; blanks := blanks st |}.

(** The state in which the group labels are normalised and the condition
    labels are not: the message is printed and the first assignment done. *)
Definition group_normalized_state `{PyStr} (group_col dv_col : string) (p : float)
    (st : state) : state :=
  {| df := normalize_col group_col <$> df st;
     sheets := sheets st;
     stdout := stdout st ++ [RunningPosthoc dv_col p];
     blanks := blanks st |}.

(** The state in which the pairwise tests are called: the message is
    printed and the labels of the shared frame are normalised. *)
Definition posthoc_state `{PyStr} (group_col condition_col dv_col : string) (p : float)
    (st : state) : state :=
  {| df := normalized group_col condition_col (df st);
     sheets := sheets st;
     stdout := stdout st ++ [RunningPosthoc dv_col p];
     blanks := blanks st |}.

(** The state after the [else] branch: only the message is printed. *)
Definition skipped_state (dv_col : string) (p : float) (st : state) : state :=
  {| df := df st; sheets := sheets st; stdout := stdout st ++ [SkippingPosthoc dv_col p];
     blanks := blanks st |}.

(** ** The pieces of one loop iteration *)

(** The interaction row the loop reads: the first with that source. *)
Definition interaction_row (mixed_anova : list AnovaRow) : option AnovaRow :=
  List.find (λ r, bool_decide (Source r = "Interaction")) mixed_anova.

(** The state once the ANOVA sheet of [dv_col] is written. *)
Definition anova_written (dv_col : string) (mixed_anova : list AnovaRow) (st : state) : state :=
  {| df := df st;
     sheets := sheets st ++ [(dv_col +:+ "_Mixed_ANOVA", TAnova mixed_anova)];
     stdout := stdout st ++ [RunningAnova dv_col];
     blanks := blanks st |}.

(** The state once the writer has refused a sheet. *)
Definition refused (blank_left : bool) (st : state) : state :=
  {| df := df st; sheets := sheets st; stdout := stdout st;
     blanks := blanks st + (if blank_left then 1 else 0) |}.

(** The five sheets of a post-hoc run. *)
Definition posthoc_sheets (dv_col : string) (posthoc_results : list PosthocRow)
    (condition_comparisons group_comparisons : gmap label (gmap string pvalue))
    (interaction_comparisons : list InteractionRow) (means : MeansTable)
    : list (string * table) :=
  [ (dv_col +:+ "_Posthoc_Comparisons", TPosthoc posthoc_results);
    (dv_col +:+ "_Condition_Comparisons", TMatrices condition_comparisons);
    (dv_col +:+ "_Group_Comparisons", TMatrices group_comparisons);
    (dv_col +:+ "_Interaction_Comparisons", TInteraction interaction_comparisons);
    (dv_col +:+ "_Means", TMeans means) ].

Definition wrote (new : list (string * table)) (st : state) : state :=
  {| df := df st; sheets := sheets st ++ new; stdout := stdout st; blanks := blanks st |}.

(** Writing tables one after the other, as the loop does with the five
    post-hoc sheets. *)
Fixpoint write_sheets `{ExcelWriter} (new : list (string * table)) : M unit :=
  match new with
  | [] => mret ()
  | nt :: new' => to_excel nt.1 nt.2 ≫= λ _, write_sheets new'
  end.

(** Whether the writer, holding [book], takes the tables [new] one after
    the other. *)
Fixpoint accepted `{ExcelWriter} (book new : list (string * table)) : bool :=
  match new with
  | [] => true
  | nt :: new' =>
      match to_excel_error book nt.1 nt.2 with
      | None => accepted (book ++ [nt]) new'
      | Some _ => false
      end
  end.

(** The five tables a post-hoc run computes from the pairwise table
    [posthoc_results] on the cleaned data [data]. *)
Definition posthoc_tables `{Pingouin} (posthoc_results : list PosthocRow) (data : DataFrame)
    (group_col condition_col dv_col : string) : posthoc_bundle :=
  (Some posthoc_results,
   Some (filled (λ g, compare_conditions_within_groups posthoc_results g
                        (levels_of condition_col data))
                (levels_of group_col data)),
   Some (filled (λ c, compare_groups_within_conditions posthoc_results c
                        (levels_of group_col data))
                (levels_of condition_col data)),
   Some (compare_interaction posthoc_results
           (calculate_means data group_col condition_col dv_col)).1,
   Some (calculate_means data group_col condition_col dv_col)).

(** Whether the post-hoc step returned its five [None]s. *)
Definition all_absent (r : result (option (list PosthocRow) *
                                   option (gmap label (gmap string pvalue)) *
                                   option (gmap label (gmap string pvalue)) *
                                   option (list InteractionRow) *
                                   option MeansTable)) : bool :=
  match r with
  | Ok (None, None, None, None, None) => true
  | _ => false
  end.

(** Whether the post-hoc step returned all five tables. *)
Definition all_present (r : result posthoc_bundle) : bool :=
  match r with
  | Ok (Some _, Some _, Some _, Some _, Some _) => true
  | _ => false
  end.

(** The statistics routine fails for [dv_col] in state [st]: the model
    fit or the sphericity test raises, or the pairwise tests are reached
    (the ANOVA sheet is written, the interaction is significant, both label
    columns are normalised) and raise. *)
Definition statistics_fail `{Pingouin} `{PyStr} `{ExcelWriter}
    (dv_col : string) (st : state) (e : exn) : Prop :=
  run_mixed_anova (df st) "ID" "Group" "Condition" dv_col = Raise e ∨
  ∃ aov sphericity r,
    run_mixed_anova (df st) "ID" "Group" "Condition" dv_col = Ok (aov, sphericity) ∧
    to_excel_error (sheets st) (dv_col +:+ "_Mixed_ANOVA") (TAnova aov) = None ∧
    interaction_row aov = Some r ∧
    PrimFloat.ltb (a_p_unc r) 0.001 = true ∧
    str_usable (column "Group" (df st)) = true ∧
    str_usable (column "Condition" (normalize_col "Group" <$> df st)) = true ∧
    pg_pairwise_tests dv_col "Condition" "Group" "ID"
      (posthoc_data (normalized "Group" "Condition" (df st)) "ID" "Group" "Condition" dv_col)
      "bonferroni" = Raise e.

(** Whether a looked-up matrix entry is a p-value below [bound]. *)
Definition entry_below (bound : float) (entry : option pvalue) : bool :=
  match entry with
  | Some (P p) => PrimFloat.ltb p bound
  | _ => false
  end.

(** ** Reading the means table *)

Definition position (x : string) (l : list string) : option nat :=
  fst <$> list_find (λ y, y = x) l.

(** [means.loc[g, c]]: the cell of group [g] and condition [c], if the
    table has that row and that column. *)
Definition means_at (means : MeansTable) (g c : string) : option float :=
  i ← position g (index means);
  j ← position c (columns means);
  row ← cells means !! i;
  row !! j.

(** ** Statements that are put to the test *)

(** The post-hoc step never changes the frame it is given. *)
Definition frame_untouched : Prop :=
  ∀ (pg : Pingouin) (ps : PyStr)
    (id_column group_col condition_col dv_col : string) (p : float) (st : state),
    df (run_posthoc_tests_if_interaction_significant
          id_column group_col condition_col dv_col p st).2 = df st.



(** A failure in one column is passed over: the loop goes on with the
    remaining columns from the state the failure left. *)
Definition batch_continues_after_failure : Prop :=
  ∀ (pg : Pingouin) (ps : PyStr) (xw : ExcelWriter) (dv_col : string) (rest : list string)
    (st st' : state) (e : exn),
    loop_body dv_col st = (Raise e, st') →
    for_each (dv_col :: rest) loop_body st = for_each rest loop_body st'.

(** Every observation that has the dependent variable enters the model. *)
Definition only_missing_dv_dropped : Prop :=
  ∀ (data : DataFrame) (id_column group_col condition_col dv_col : string) (r : Row),
    r ∈ data → isna (at_col r dv_col) = false →
    select_row [id_column; group_col; condition_col; dv_col] r
      ∈ aov_data data id_column group_col condition_col dv_col.

(** The means table has a cell exactly for the pairs of group and
    condition that were observed with a value. *)
Definition means_keys_are_observed_pairs : Prop :=
  ∀ (pg : Pingouin) (data : DataFrame) (group_col condition_col dv_col : string)
    (g c : string),
    is_Some (means_at (calculate_means data group_col condition_col dv_col) g c) ↔
    ∃ r, r ∈ data ∧ group_key group_col condition_col r = Some (g, c) ∧
         isna (at_col r dv_col) = false.

(** ** Test data *)

(** A small frame, a flat pairwise table and a stand-in for the statistics
    library, on which the statements below are exercised. *)
Module Sample.

Definition observation (id group condition : cell) (fz_cz cz_pz : cell) : Row :=
  {[ "ID" := id; "Group" := group; "Condition" := condition;
     "Fz_Cz" := fz_cz; "Cz_Pz" := cz_pz ]}.

(** Two subjects, two conditions, labels typed inconsistently, one missing
    measurement. *)
Definition frame : DataFrame :=
  [ observation (Str "s1") (Str " Ctl") (Str "Pre") (Num 0.0005) (Num 0.02);
    observation (Str "s1") (Str "ctl") (Str "post ") (Num 1.5) (Num 2.5);
    observation (Str "s2") (Str "TRT") (Str "pre") (Num 2) (Num PrimFloat.nan);
    observation (Str "s2") (Str "trt") (Str "post") (Num 3) (Num 1) ].

(** The same observations with the labels already normalised. *)
Definition clean_frame : DataFrame :=
  [ observation (Str "s1") (Str "ctl") (Str "pre") (Num 0.0005) (Num 0.02);
    observation (Str "s1") (Str "ctl") (Str "post") (Num 1.5) (Num 2.5);
    observation (Str "s2") (Str "trt") (Str "pre") (Num 2) (Num PrimFloat.nan);
    observation (Str "s2") (Str "trt") (Str "post") (Num 3) (Num 1) ].

(** A subject whose group was left empty in the sheet. *)
Definition frame_without_group : DataFrame :=
  [ observation (Str "s1") NA (Str "pre") (Num 1) (Num 1);
    observation (Str "s1") (Str "ctl") (Str "post") (Num 2) (Num 2) ].

(** An unbalanced design: the treated group was never measured at "post". *)
Definition unbalanced_frame : DataFrame :=
  [ observation (Str "s1") (Str "ctl") (Str "pre") (Num 1) (Num 1);
    observation (Str "s1") (Str "ctl") (Str "post") (Num 3) (Num 1);
    observation (Str "s2") (Str "trt") (Str "pre") (Num 5) (Num 1) ].

(** A further column, "Oz", that was never measured. *)
Definition frame_with_empty_column : DataFrame :=
  <["Oz" := Num PrimFloat.nan]> <$> clean_frame.

(** A further column whose name holds a slash. *)
Definition frame_with_slash_column : DataFrame :=
  <["Fz/Cz" := Num 0.02]> <$> clean_frame.


(** Groups coded as numbers. *)
Definition frame_with_numeric_groups : DataFrame :=
  [ observation (Str "s1") (Num 1) (Str "Pre") (Num 0.0005) (Num 0.02);
    observation (Str "s1") (Num 1) (Str "post ") (Num 1.5) (Num 2.5);
    observation (Str "s2") (Num 2) (Str "pre") (Num 2) (Num PrimFloat.nan);
    observation (Str "s2") (Num 2) (Str "post") (Num 3) (Num 1) ].

Definition contrast (kind : string) (a b : string) (p : float) : PosthocRow :=
  {| Contrast := kind; A := Some a; B := Some b; T := 1; p_unc := p; p_corr := p |}.

Definition pairwise : list PosthocRow :=
  [ contrast "Condition" "post" "pre" 0.02;
    contrast "Group" "ctl" "trt" 0.3;
    contrast "Condition * Group" "ctl" "trt" 0.04;
    contrast "Condition * Group" "ctl" "trt" 0.6 ].

(** Two rows for one pair of conditions, in opposite orders. *)
Definition pairwise_twice : list PosthocRow :=
  [ contrast "Condition" "y" "x" 0.5;
    contrast "Condition" "x" "y" 0.02 ].

(** Level names that contain the separator of the matrix keys. *)
Definition levels_with_separator : list label :=
  [ Some "a"; Some "b vs c"; Some "a vs b"; Some "c" ].

Definition pairwise_separator : list PosthocRow :=
  [ contrast "Condition" "a vs b" "c" 0.02 ].

Definition effect (source : string) (p : float) : AnovaRow :=
  {| Source := source; DF1 := 1; DF2 := 2; F := 1; a_p_unc := p; np2 := 0 |}.

(** A stand-in for pingouin: it refuses an empty frame, reports main
    effects only for a frame of fewer than three rows, and otherwise
    reports as interaction p-value the first value of the dependent
    variable. *)
Definition stub : Pingouin := {|
  pg_sphericity := λ data _ _ _,
    match data with
    | [] => Raise "ValueError"
    | _ => Ok {| spher := true; W := 1; chi2 := 0; dof := 1; pval := 1 |}
    end;
  pg_mixed_anova := λ dv _ _ _ data _,
    match data with
    | [] => Raise "ValueError"
    | r :: rest =>
        if bool_decide (length rest < 2)%nat
        then Ok [effect "Group" 0.5; effect "Condition" 0.5]
        else Ok [effect "Group" 0.5; effect "Condition" 0.5;
                 effect "Interaction" (as_float (at_col r dv))]
    end;
  pg_pairwise_tests := λ _ _ _ _ data _,
    match data with
    | [] => Raise "ValueError"
    | _ => Ok pairwise
    end;
  average := λ ys,
    PrimFloat.div (foldr PrimFloat.add 0%float ys)
                  (PrimFloat.of_uint63 (Uint63.of_Z (Z.of_nat (length ys))))
|}.

(** Stand-ins for [str.strip] and [str.lower] that agree with Python on
    strings of ASCII characters: white space is TAB..CR, FS..US and space,
    and A..Z have a lower case. *)
Definition is_space (a : ascii) : bool :=
  let n := nat_of_ascii a in
  (((9 <=? n) && (n <=? 13)) || ((28 <=? n) && (n <=? 32)))%nat.

Fixpoint lstrip (s : string) : string :=
  match s with
  | String a s' => if is_space a then lstrip s' else s
  | EmptyString => EmptyString
  end.

Definition strip (s : string) : string :=
  String.rev (lstrip (String.rev (lstrip s))).

Definition lower_ascii (a : ascii) : ascii :=
  let n := nat_of_ascii a in
  if ((65 <=? n) && (n <=? 90))%nat then ascii_of_nat (n + 32) else a.

Fixpoint lower (s : string) : string :=
  match s with
  | String a s' => String (lower_ascii a) (lower s')
  | EmptyString => EmptyString
  end.

Definition ascii_str : PyStr := {| py_strip := strip; py_lower := lower |}.

(** A stand-in for the Excel writer with openpyxl's rule for titles: a
    sheet name with one of the characters \ / * ? : [ ] is refused with
    [ValueError], and the sheet created for it stays in the workbook,
    untitled. *)
Definition forbidden_in_title (a : ascii) : bool :=
  bool_decide (a ∈ list_ascii_of_string "\/*?:[]").

Fixpoint title_refused (name : string) : bool :=
  match name with
  | String a name' => forbidden_in_title a || title_refused name'
  | EmptyString => false
  end.

Definition title_checker : ExcelWriter := {|
  to_excel_error := λ _ name _,
    if title_refused name then Some ("ValueError", true) else None
|}.

Definition start (data : DataFrame) : state :=
  {| df := data; sheets := []; stdout := []; blanks := 0 |}.

End Sample.

#[local] Existing Instance Sample.stub.
#[local] Existing Instance Sample.ascii_str.
#[local] Existing Instance Sample.title_checker.

(** ** Further notions used by the properties *)

(** The sheet names of one dependent variable, in the order the loop
    writes them. *)
Definition sheet_suffixes : list string :=
  [ "_Mixed_ANOVA"; "_Posthoc_Comparisons"; "_Condition_Comparisons";
    "_Group_Comparisons"; "_Interaction_Comparisons"; "_Means" ].

Definition sheet_names (dv_col : string) : list string :=
  (λ suffix, dv_col +:+ suffix) <$> sheet_suffixes.

(** What a matrix builder can see of the table: for the rows of its own
    contrast, the two levels and the uncorrected p-value. *)
Definition table_view (kind : string) (rows : list PosthocRow)
    : list (label * label * float) :=
  (λ r, (A r, B r, p_unc r)) <$> List.filter (λ r, bool_decide (Contrast r = kind)) rows.

(** The p-value of a matrix entry, [0] for the sentinel. *)
Definition entry_value (v : pvalue) : float :=
  match v with
  | P p => p
  | ns => 0%float
  end.

(** The library [pg] with another sphericity test. *)
Definition with_sphericity (pg : Pingouin)
    (sphericity_test : DataFrame → string → string → string → result SpherResults)
    : Pingouin :=
  {| pg_sphericity := sphericity_test;
     pg_mixed_anova := @pg_mixed_anova pg;
     pg_pairwise_tests := @pg_pairwise_tests pg;
     average := @average pg |}.

(** * Properties *)

(** ** Comparing floats *)

Lemma SFcompare_antisym (x y : spec_float) :
  SFcompare y x = CompOpp <$> SFcompare x y.
Proof.
  destruct x as [sx|sx| |sx mx ex], y as [sy|sy| |sy my ey]; simpl;
    try done; try (by destruct sx); try (by destruct sy); try (by destruct sx, sy).
  rewrite (Z.compare_antisym ex ey).
  change (Pos.compare_cont Eq my mx) with (Pos.compare_cont (CompOpp Eq) my mx).
  rewrite <-(Pos.compare_cont_antisym mx my Eq).
  by destruct sx, sy, (ex ?= ey)%Z, (Pos.compare_cont Eq mx my).
Qed.


(** ** The comparison matrices *)

Section matrices.
Implicit Types (rows : list PosthocRow) (levels : list label) (c : label).

Lemma foldl_pointwise {X Y} (f g : X → Y → X) (l : list Y) (x : X) :
  (∀ a b, f a b = g a b) → foldl f x l = foldl g x l.
Proof.
  intros Hfg. revert x. induction l as [|b l IH]; intros x; simpl; [done|].
  by rewrite Hfg, IH.
Qed.

Lemma elem_of_pairs levels (a b : label) :
  (a, b) ∈ list_prod levels levels ↔ a ∈ levels ∧ b ∈ levels.
Proof. by rewrite <-list_cprod_list_prod, list_elem_of_cprod. Qed.

Lemma compare_conditions_pair_matrix rows group conditions :
  compare_conditions_within_groups rows group conditions
  = pair_matrix "Condition" rows conditions.
Proof.
  unfold compare_conditions_within_groups, pair_matrix.
  apply foldl_pointwise. by intros m [a b].
Qed.

Lemma compare_groups_pair_matrix rows condition groups :
  compare_groups_within_conditions rows condition groups
  = pair_matrix "Group" rows groups.
Proof.
  unfold compare_groups_within_conditions, pair_matrix.
  apply foldl_pointwise. by intros m [a b].
Qed.

Lemma pair_mask_sym kind c1 c2 r : pair_mask kind c1 c2 r = pair_mask kind c2 c1 r.
Proof. unfold pair_mask. f_equal. apply orb_comm. Qed.

Lemma first_match_sym kind rows c1 c2 :
  first_match kind rows c1 c2 = first_match kind rows c2 c1.
Proof.
  unfold first_match.
  by rewrite (List.filter_ext _ _ (pair_mask_sym kind c1 c2)).
Qed.

Lemma first_match_find kind rows c1 c2 :
  first_match kind rows c1 c2
  = match List.find (pair_mask kind c1 c2) rows with
    | Some r => P (p_unc r)
    | None => ns
    end.
Proof.
  unfold first_match.
  induction rows as [|r rows IH]; [done|]. simpl.
  by destruct (pair_mask kind c1 c2 r).
Qed.

Lemma first_match_miss kind rows c1 c2 :
  (∀ r, r ∈ rows → pair_mask kind c1 c2 r = false) →
  first_match kind rows c1 c2 = ns.
Proof.
  intros Hmiss. rewrite first_match_find.
  destruct (List.find _ rows) as [r|] eqn:Hfind; [|done].
  apply find_some in Hfind as [Hin Hmask].
  apply list_elem_of_In, Hmiss in Hin. congruence.
Qed.

(** What the loop leaves under a key: the value of some pair stored
    under it, or what was there before when no pair has that key. *)
Lemma foldl_store_pair_lookup kind rows (l : list (label * label)) m k v :
  (∀ a b, (a, b) ∈ l → label_ne a b = true → pair_key a b = k →
          first_match kind rows a b = v) →
  foldl (store_pair kind rows) m l !! k = Some v ∨
  (foldl (store_pair kind rows) m l !! k = m !! k ∧
   ∀ a b, (a, b) ∈ l → label_ne a b = true → pair_key a b ≠ k).
Proof.
  revert m. induction l as [|[a b] l IH]; intros m Hval; simpl.
  - right. split; [done|]. intros ?? Hin. by apply elem_of_nil in Hin.
  - destruct (IH (store_pair kind rows m (a, b))) as [Hv|[Hsame Hfresh]].
    { intros a' b' Hin. apply Hval. by right. }
    { by left. }
    rewrite Hsame. unfold store_pair; simpl.
    destruct (label_ne a b) eqn:Hne.
    + destruct (decide (pair_key a b = k)) as [Hk|Hk].
      * left. rewrite Hk, lookup_insert_eq. f_equal. apply Hval; [by left|done..].
      * right. split; [by rewrite lookup_insert_ne|].
        intros a' b' [[= -> ->]|Hin]%elem_of_cons; [done|by apply Hfresh].
    + right. split; [done|].
      intros a' b' [[= -> ->]|Hin]%elem_of_cons; [congruence|by apply Hfresh].
Qed.

(** A pair of distinct levels whose key no other pair shares is mapped
    to its own first match. *)
Lemma pair_matrix_lookup kind rows levels c1 c2 :
  c1 ∈ levels → c2 ∈ levels → label_ne c1 c2 = true →
  (∀ a b, a ∈ levels → b ∈ levels → label_ne a b = true →
          pair_key a b = pair_key c1 c2 → a = c1 ∧ b = c2) →
  pair_matrix kind rows levels !! pair_key c1 c2 = Some (first_match kind rows c1 c2).
Proof.
  intros H1 H2 Hne Hinj. unfold pair_matrix.
  destruct (foldl_store_pair_lookup kind rows (list_prod levels levels) ∅
              (pair_key c1 c2) (first_match kind rows c1 c2)) as [Hv|[_ Hfresh]];
    [|done|].
  - intros a b [Ha Hb]%elem_of_pairs Hab Hk.
    by destruct (Hinj a b) as [-> ->].
  - exfalso. apply (Hfresh c1 c2); [|done..].
    apply elem_of_pairs. by split.
Qed.

Lemma label_ne_Some (x y : string) : x ≠ y → label_ne (Some x) (Some y) = true.
Proof. intros Hxy. unfold label_ne, label_eq. by rewrite bool_decide_eq_false_2. Qed.

End matrices.

(** The symmetric lookup read for any row of the table: whenever a
    within-factor row has [A = x], [B = y] and [p-unc = p], both keys hold
    [p]. *)
Definition any_row_decides_both_keys : Prop :=
  ∀ (rows : list PosthocRow) (group : label) (conditions : list label)
    (x y : string) (r : PosthocRow),
    r ∈ rows → Contrast r = "Condition" → A r = Some x → B r = Some y →
    Some x ∈ conditions → Some y ∈ conditions → x ≠ y →
    let m := compare_conditions_within_groups rows group conditions in
    m !! pair_key (Some x) (Some y) = Some (P (p_unc r)) ∧
    m !! pair_key (Some y) (Some x) = Some (P (p_unc r)).

(** C2, as stated, fails: with two rows for the pair (x, y), in opposite
    orders and with different p-values, both keys hold the p-value of the
    row that comes first, 0.5, not the 0.02 of the row with [A = x],
    [B = y]. *)
Lemma any_row_decides_both_keys_fails : ¬ any_row_decides_both_keys.
Proof.
  intros Hall.
  destruct (Hall Sample.pairwise_twice None [Some "x"; Some "y"] "x" "y"
              (Sample.contrast "Condition" "x" "y" 0.02)) as [Hxy _];
    [by right; left|done|done|done|by left|by right; left|done|].
  apply (f_equal (entry_below 0.1)) in Hxy. by vm_compute in Hxy.
Qed.

(** C2, amended: the condition-pair matrix maps both keys, "x vs y" and
    "y vs x", to the uncorrected p-value of the first row of the table, in
    table order, that has the within-factor contrast and the levels x and y
    as (A, B) in either order; the lookup does not depend on the order of A
    and B.  This holds for distinct levels x and y of the level list whose
    two keys are rendered by no other pair of levels. *)
Theorem conditions_matrix_symmetric_first_match
    (rows : list PosthocRow) (group : label) (conditions : list label)
    (x y : string) (r : PosthocRow) :
  List.find (pair_mask "Condition" (Some x) (Some y)) rows = Some r →
  Some x ∈ conditions → Some y ∈ conditions → x ≠ y →
  (∀ a b, a ∈ conditions → b ∈ conditions → label_ne a b = true →
          pair_key a b = pair_key (Some x) (Some y) → a = Some x ∧ b = Some y) →
  (∀ a b, a ∈ conditions → b ∈ conditions → label_ne a b = true →
          pair_key a b = pair_key (Some y) (Some x) → a = Some y ∧ b = Some x) →
  compare_conditions_within_groups rows group conditions !! pair_key (Some x) (Some y)
    = Some (P (p_unc r)) ∧
  compare_conditions_within_groups rows group conditions !! pair_key (Some y) (Some x)
    = Some (P (p_unc r)).
Proof.
  intros Hfind Hx Hy Hxy Hkey_xy Hkey_yx.
  rewrite compare_conditions_pair_matrix.
  assert (first_match "Condition" rows (Some x) (Some y) = P (p_unc r)) as Hfirst.
  { by rewrite first_match_find, Hfind. }
  split.
  - rewrite pair_matrix_lookup; auto using label_ne_Some.
    by rewrite Hfirst.
  - rewrite pair_matrix_lookup; auto using label_ne_Some.
    by rewrite first_match_sym, Hfirst.
Qed.

(** The ordered pairs of the two levels "x" and "y" have different keys. *)
Lemma pair_key_x_y (a b : label) (u v : string) :
  a ∈ [Some "x"; Some "y"] → b ∈ [Some "x"; Some "y"] →
  (u, v) ∈ [("x", "y"); ("y", "x")] →
  pair_key a b = pair_key (Some u) (Some v) →
  a = Some u ∧ b = Some v.
Proof.
  intros Ha Hb Huv Hk.
  repeat (apply elem_of_cons in Ha as [->|Ha]); [| |by apply elem_of_nil in Ha];
    (repeat (apply elem_of_cons in Hb as [->|Hb]); [| |by apply elem_of_nil in Hb]);
    (repeat (apply elem_of_cons in Huv as [[= -> ->]|Huv]); [| |by apply elem_of_nil in Huv]);
    by vm_compute in Hk.
Qed.

Lemma conditions_matrix_symmetric_first_match_witness :
  compare_conditions_within_groups Sample.pairwise_twice None [Some "x"; Some "y"]
    !! "x vs y" = Some (P 0.5) ∧
  compare_conditions_within_groups Sample.pairwise_twice None [Some "x"; Some "y"]
    !! "y vs x" = Some (P 0.5).
Proof.
  apply (conditions_matrix_symmetric_first_match Sample.pairwise_twice None
           [Some "x"; Some "y"] "x" "y" (Sample.contrast "Condition" "y" "x" 0.5)).
  - reflexivity.
  - by left.
  - by right; left.
  - done.
  - intros a b Ha Hb _ Hk. apply pair_key_x_y; [done|done|by left|done].
  - intros a b Ha Hb _ Hk. apply pair_key_x_y; [done|done|by right; left|done].
Defined.

(** C4: the matrix does not keep the sentinel of a missed pair whose key
    another pair renders too.  No row of the table has the levels "a" and
    "b vs c", yet their key "a vs b vs c" is also the key of the pair
    ("a vs b", "c"), stored later, and ends up holding that pair's 0.02. *)
Lemma missed_pair_key_overwritten :
  (∀ r, r ∈ Sample.pairwise_separator →
        pair_mask "Condition" (Some "a") (Some "b vs c") r = false) ∧
  Some "a" ∈ Sample.levels_with_separator ∧
  Some "b vs c" ∈ Sample.levels_with_separator ∧
  label_ne (Some "a") (Some "b vs c") = true ∧
  compare_conditions_within_groups Sample.pairwise_separator None
    Sample.levels_with_separator !! pair_key (Some "a") (Some "b vs c") = Some (P 0.02).
Proof.
  split_and!; [|by left|by right; left|done|by vm_compute].
  intros r Hr. apply list_elem_of_singleton in Hr as ->. by vm_compute.
Qed.

(** Away from such clashes a miss is the sentinel, in both builders, and
    no lookup raises: the builders are total functions. *)
Lemma matrix_miss_is_ns (rows : list PosthocRow) (fixed : label) (levels : list label)
    (c1 c2 : label) :
  c1 ∈ levels → c2 ∈ levels → label_ne c1 c2 = true →
  (∀ a b, a ∈ levels → b ∈ levels → label_ne a b = true →
          pair_key a b = pair_key c1 c2 → a = c1 ∧ b = c2) →
  ((∀ r, r ∈ rows → pair_mask "Condition" c1 c2 r = false) →
   compare_conditions_within_groups rows fixed levels !! pair_key c1 c2 = Some ns) ∧
  ((∀ r, r ∈ rows → pair_mask "Group" c1 c2 r = false) →
   compare_groups_within_conditions rows fixed levels !! pair_key c1 c2 = Some ns).
Proof.
  intros H1 H2 Hne Hinj. split; intros Hmiss.
  - by rewrite compare_conditions_pair_matrix, pair_matrix_lookup, first_match_miss.
  - by rewrite compare_groups_pair_matrix, pair_matrix_lookup, first_match_miss.
Qed.


(** ** The post-hoc step, branch by branch *)

Section posthoc_step.
Context `{Pingouin} `{PyStr}.
Implicit Types (st : state) (p : float) (col : string).

Lemma posthoc_skipped id_column group_col condition_col dv_col p st :
  PrimFloat.ltb p 0.001 = false →
  run_posthoc_tests_if_interaction_significant id_column group_col condition_col dv_col p st
  = (Ok (None, None, None, None, None), skipped_state dv_col p st).
Proof.
  intros Hp. unfold run_posthoc_tests_if_interaction_significant. by rewrite Hp.
Qed.

Lemma assign_normalized_unfold col st :
  assign_normalized col st
  = if str_usable (column col (df st))
    then (Ok (), {| df := normalize_col col <$> df st; sheets := sheets st;
                    stdout := stdout st; blanks := blanks st |})
    else (Raise "AttributeError", st).
Proof.
  unfold assign_normalized, mbind, M_bind, get_df, update_df, lift.
  by destruct (str_usable _).
Qed.

(** The step once the gate is passed: the two assignments, then the
    pairwise tests, then the tables. *)
Lemma posthoc_entered id_column group_col condition_col dv_col p st :
  PrimFloat.ltb p 0.001 = true →
  run_posthoc_tests_if_interaction_significant id_column group_col condition_col dv_col p st
  = if str_usable (column group_col (df st)) then
      if str_usable (column condition_col (normalize_col group_col <$> df st)) then
        let st' := posthoc_state group_col condition_col dv_col p st in
        let data := posthoc_data (df st') id_column group_col condition_col dv_col in
        match pg_pairwise_tests dv_col condition_col group_col id_column data "bonferroni" with
        | Ok posthoc_results =>
            (Ok (posthoc_tables posthoc_results data group_col condition_col dv_col), st')
        | Raise e => (Raise e, st')
        end
      else (Raise "AttributeError", group_normalized_state group_col dv_col p st)
    else (Raise "AttributeError", said (RunningPosthoc dv_col p) st).
Proof.
  intros Hp. unfold run_posthoc_tests_if_interaction_significant. rewrite Hp.
  unfold mbind, M_bind, print. rewrite assign_normalized_unfold. simpl.
  destruct (str_usable (column group_col (df st))); [|done].
  rewrite assign_normalized_unfold. simpl.
  destruct (str_usable (column condition_col (normalize_col group_col <$> df st))); [|done].
  unfold get_df, lift; simpl.
  by destruct (pg_pairwise_tests _ _ _ _ _ _).
Qed.

Lemma posthoc_group_unusable id_column group_col condition_col dv_col p st :
  PrimFloat.ltb p 0.001 = true →
  str_usable (column group_col (df st)) = false →
  run_posthoc_tests_if_interaction_significant id_column group_col condition_col dv_col p st
  = (Raise "AttributeError", said (RunningPosthoc dv_col p) st).
Proof. intros Hp Hg. rewrite posthoc_entered by done. by rewrite Hg. Qed.

Lemma posthoc_condition_unusable id_column group_col condition_col dv_col p st :
  PrimFloat.ltb p 0.001 = true →
  str_usable (column group_col (df st)) = true →
  str_usable (column condition_col (normalize_col group_col <$> df st)) = false →
  run_posthoc_tests_if_interaction_significant id_column group_col condition_col dv_col p st
  = (Raise "AttributeError", group_normalized_state group_col dv_col p st).
Proof. intros Hp Hg Hc. rewrite posthoc_entered by done. by rewrite Hg, Hc. Qed.

Lemma posthoc_run id_column group_col condition_col dv_col p st :
  PrimFloat.ltb p 0.001 = true →
  str_usable (column group_col (df st)) = true →
  str_usable (column condition_col (normalize_col group_col <$> df st)) = true →
  run_posthoc_tests_if_interaction_significant id_column group_col condition_col dv_col p st
  = let st' := posthoc_state group_col condition_col dv_col p st in
    let data := posthoc_data (df st') id_column group_col condition_col dv_col in
    match pg_pairwise_tests dv_col condition_col group_col id_column data "bonferroni" with
    | Ok posthoc_results =>
        (Ok (posthoc_tables posthoc_results data group_col condition_col dv_col), st')
    | Raise e => (Raise e, st')
    end.
Proof. intros Hp Hg Hc. rewrite posthoc_entered by done. by rewrite Hg, Hc. Qed.

(** A run that returns tables has passed the gate and both assignments,
    and its tables are those computed from the pairwise table. *)
Lemma posthoc_ok_inv id_column group_col condition_col dv_col p st st'
    posthoc_results condition_comparisons group_comparisons interaction_comparisons means :
  run_posthoc_tests_if_interaction_significant id_column group_col condition_col dv_col p st
  = (Ok (posthoc_results, Some condition_comparisons, Some group_comparisons,
         interaction_comparisons, means), st') →
  st' = posthoc_state group_col condition_col dv_col p st ∧
  ∃ rows,
    pg_pairwise_tests dv_col condition_col group_col id_column
      (posthoc_data (df st') id_column group_col condition_col dv_col) "bonferroni"
    = Ok rows ∧
    (posthoc_results, Some condition_comparisons, Some group_comparisons,
     interaction_comparisons, means)
    = posthoc_tables rows (posthoc_data (df st') id_column group_col condition_col dv_col)
        group_col condition_col dv_col.
Proof.
  intros Hrun. destruct (PrimFloat.ltb p 0.001) eqn:Hp.
  - rewrite posthoc_entered in Hrun by done.
    destruct (str_usable (column group_col (df st))); [|done].
    destruct (str_usable (column condition_col (normalize_col group_col <$> df st)));
      [|done].
    simpl in Hrun.
    destruct (pg_pairwise_tests dv_col condition_col group_col id_column
                (posthoc_data (normalized group_col condition_col (df st))
                   id_column group_col condition_col dv_col) "bonferroni")
      as [rows|e] eqn:Htests; [|done].
    pose proof (f_equal snd Hrun) as Hst. simpl in Hst. subst st'.
    pose proof (f_equal (λ out, match out.1 with Ok x => Some x | Raise _ => None end) Hrun)
      as Hres.
    simpl in Hres. apply (inj Some) in Hres.
    split; [done|]. exists rows. split; [done|]. by rewrite <-Hres.
  - by rewrite posthoc_skipped in Hrun.
Qed.

End posthoc_step.

(** ** One iteration of the loop, case by case *)

Section iteration.
Context `{Pingouin} `{PyStr} `{ExcelWriter}.
Implicit Types (st : state) (p : float) (aov : list AnovaRow).
Local Open Scope list_scope.

Lemma interaction_row_none aov :
  interaction_row aov = None →
  existsb (λ r, bool_decide (Source r = "Interaction")) aov = false.
Proof.
  unfold interaction_row. induction aov as [|r aov IH]; simpl; [done|].
  destruct (bool_decide (Source r = "Interaction")); [done|]. apply IH.
Qed.

Lemma interaction_row_some aov r :
  interaction_row aov = Some r →
  existsb (λ r, bool_decide (Source r = "Interaction")) aov = true ∧
  values0 (a_p_unc <$> List.filter (λ r, bool_decide (Source r = "Interaction")) aov)
  = Ok (a_p_unc r).
Proof.
  unfold interaction_row. induction aov as [|r' aov IH]; simpl; [done|].
  destruct (bool_decide (Source r' = "Interaction")); [|apply IH].
  by intros [= ->].
Qed.

Lemma to_excel_accepted name t st :
  to_excel_error (sheets st) name t = None →
  to_excel name t st = (Ok (), wrote [(name, t)] st).
Proof. intros Hw. unfold to_excel. by rewrite Hw. Qed.

Lemma to_excel_refused name t st e blank_left :
  to_excel_error (sheets st) name t = Some (e, blank_left) →
  to_excel name t st = (Raise e, refused blank_left st).
Proof. intros Hw. unfold to_excel. by rewrite Hw. Qed.

Lemma write_sheets_accepted (new : list (string * table)) st :
  accepted (sheets st) new = true →
  write_sheets new st = (Ok (), wrote new st).
Proof.
  revert st. induction new as [|[name t] new IH]; intros st Hall; simpl in *.
  - unfold wrote. rewrite app_nil_r. by destruct st.
  - unfold mbind, M_bind.
    destruct (to_excel_error (sheets st) name t) as [eb|] eqn:Hw; [done|].
    rewrite (to_excel_accepted _ _ _ Hw). rewrite IH by done.
    unfold wrote; simpl. by rewrite <-app_assoc.
Qed.

(** Tables written one after the other: what was accepted is a prefix of
    what was handed over, all of it unless a write raised; a refused write
    leaves at most one blank sheet. *)
Lemma write_sheets_summary (new : list (string * table)) st :
  ∃ done,
    sheets (write_sheets new st).2 = sheets st ++ done ∧
    done `prefix_of` new ∧
    df (write_sheets new st).2 = df st ∧
    stdout (write_sheets new st).2 = stdout st ∧
    (blanks st ≤ blanks (write_sheets new st).2 ≤ blanks st + 1)%nat ∧
    (if is_raise (write_sheets new st).1
     then (length done < length new)%nat
     else done = new ∧ blanks (write_sheets new st).2 = blanks st).
Proof.
  revert st. induction new as [|[name t] new IH]; intros st; simpl.
  - exists []. rewrite app_nil_r. split_and!; try done; lia.
  - unfold mbind, M_bind.
    destruct (to_excel_error (sheets st) name t) as [[e blank_left]|] eqn:Hw.
    + rewrite (to_excel_refused _ _ _ _ _ Hw). simpl.
      exists []. rewrite app_nil_r.
      split_and!; try done; [apply prefix_nil|lia|destruct blank_left; lia|simpl; lia].
    + rewrite (to_excel_accepted _ _ _ Hw).
      destruct (IH (wrote [(name, t)] st))
        as (done & Hsheets & Hpre & Hdf & Hout & Hlo & Hend); simpl in *.
      exists ((name, t) :: done). split_and!; try done; try lia.
      * by rewrite Hsheets, <-app_assoc.
      * by apply prefix_cons.
      * destruct (is_raise _); simpl; [lia|]. by destruct Hend as [-> ?].
Qed.

Lemma body_anova_fails dv_col st e :
  run_mixed_anova (df st) "ID" "Group" "Condition" dv_col = Raise e →
  loop_body dv_col st = (Raise e, said (RunningAnova dv_col) st).
Proof.
  intros Hfit. unfold loop_body, mbind, M_bind, print, get_df, lift; simpl.
  by rewrite Hfit.
Qed.

Lemma body_anova_refused dv_col st aov sphericity e blank_left :
  run_mixed_anova (df st) "ID" "Group" "Condition" dv_col = Ok (aov, sphericity) →
  to_excel_error (sheets st) (dv_col +:+ "_Mixed_ANOVA") (TAnova aov)
  = Some (e, blank_left) →
  loop_body dv_col st = (Raise e, refused blank_left (said (RunningAnova dv_col) st)).
Proof.
  intros Hfit Hw. unfold loop_body, mbind, M_bind, print, get_df, lift, to_excel; simpl.
  rewrite Hfit; simpl. by rewrite Hw.
Qed.

Lemma body_no_interaction dv_col st aov sphericity :
  run_mixed_anova (df st) "ID" "Group" "Condition" dv_col = Ok (aov, sphericity) →
  to_excel_error (sheets st) (dv_col +:+ "_Mixed_ANOVA") (TAnova aov) = None →
  interaction_row aov = None →
  loop_body dv_col st
  = (Ok (), said (InteractionNotFound dv_col) (anova_written dv_col aov st)).
Proof.
  intros Hfit Hw Hrow%interaction_row_none.
  unfold loop_body, mbind, M_bind, print, get_df, lift, to_excel; simpl.
  rewrite Hfit; simpl. by rewrite Hw, Hrow.
Qed.

(** Up to the call of the post-hoc step. *)
Lemma body_interaction dv_col st aov sphericity r :
  run_mixed_anova (df st) "ID" "Group" "Condition" dv_col = Ok (aov, sphericity) →
  to_excel_error (sheets st) (dv_col +:+ "_Mixed_ANOVA") (TAnova aov) = None →
  interaction_row aov = Some r →
  loop_body dv_col st
  = (run_posthoc_tests_if_interaction_significant "ID" "Group" "Condition" dv_col (a_p_unc r)
     ≫= λ '(posthoc_results, condition_comparisons, group_comparisons,
            interaction_comparisons, means),
       match posthoc_results with
       | Some posthoc_results =>
           to_excel (dv_col +:+ "_Posthoc_Comparisons") (TPosthoc posthoc_results);;
           condition_comparisons ← not_none condition_comparisons;
           to_excel (dv_col +:+ "_Condition_Comparisons") (TMatrices condition_comparisons);;
           group_comparisons ← not_none group_comparisons;
           to_excel (dv_col +:+ "_Group_Comparisons") (TMatrices group_comparisons);;
           interaction_comparisons ← not_none interaction_comparisons;
           to_excel (dv_col +:+ "_Interaction_Comparisons")
                    (TInteraction interaction_comparisons);;
           means ← not_none means;
           to_excel (dv_col +:+ "_Means") (TMeans means)
       | None => mret ()
       end) (anova_written dv_col aov st).
Proof.
  intros Hfit Hw [Hin Hp]%interaction_row_some.
  unfold loop_body, mbind at 1 2 3 4 5, M_bind at 1 2 3 4 5, print, get_df, lift; simpl.
  rewrite Hfit; simpl. unfold to_excel at 1; simpl. rewrite Hw, Hin; simpl. by rewrite Hp.
Qed.

Lemma body_not_significant dv_col st aov sphericity r :
  run_mixed_anova (df st) "ID" "Group" "Condition" dv_col = Ok (aov, sphericity) →
  to_excel_error (sheets st) (dv_col +:+ "_Mixed_ANOVA") (TAnova aov) = None →
  interaction_row aov = Some r →
  PrimFloat.ltb (a_p_unc r) 0.001 = false →
  loop_body dv_col st
  = (Ok (), skipped_state dv_col (a_p_unc r) (anova_written dv_col aov st)).
Proof.
  intros Hfit Hw Hrow Hp. rewrite (body_interaction _ _ _ _ _ Hfit Hw Hrow).
  unfold mbind, M_bind. by rewrite posthoc_skipped.
Qed.

Lemma body_group_unusable dv_col st aov sphericity r :
  run_mixed_anova (df st) "ID" "Group" "Condition" dv_col = Ok (aov, sphericity) →
  to_excel_error (sheets st) (dv_col +:+ "_Mixed_ANOVA") (TAnova aov) = None →
  interaction_row aov = Some r →
  PrimFloat.ltb (a_p_unc r) 0.001 = true →
  str_usable (column "Group" (df st)) = false →
  loop_body dv_col st
  = (Raise "AttributeError",
     said (RunningPosthoc dv_col (a_p_unc r)) (anova_written dv_col aov st)).
Proof.
  intros Hfit Hw Hrow Hp Hg. rewrite (body_interaction _ _ _ _ _ Hfit Hw Hrow).
  unfold mbind, M_bind. by rewrite posthoc_group_unusable.
Qed.

Lemma body_condition_unusable dv_col st aov sphericity r :
  run_mixed_anova (df st) "ID" "Group" "Condition" dv_col = Ok (aov, sphericity) →
  to_excel_error (sheets st) (dv_col +:+ "_Mixed_ANOVA") (TAnova aov) = None →
  interaction_row aov = Some r →
  PrimFloat.ltb (a_p_unc r) 0.001 = true →
  str_usable (column "Group" (df st)) = true →
  str_usable (column "Condition" (normalize_col "Group" <$> df st)) = false →
  loop_body dv_col st
  = (Raise "AttributeError",
     group_normalized_state "Group" dv_col (a_p_unc r) (anova_written dv_col aov st)).
Proof.
  intros Hfit Hw Hrow Hp Hg Hc. rewrite (body_interaction _ _ _ _ _ Hfit Hw Hrow).
  unfold mbind, M_bind. by rewrite posthoc_condition_unusable.
Qed.

Lemma body_pairwise_fails dv_col st aov sphericity r e :
  run_mixed_anova (df st) "ID" "Group" "Condition" dv_col = Ok (aov, sphericity) →
  to_excel_error (sheets st) (dv_col +:+ "_Mixed_ANOVA") (TAnova aov) = None →
  interaction_row aov = Some r →
  PrimFloat.ltb (a_p_unc r) 0.001 = true →
  str_usable (column "Group" (df st)) = true →
  str_usable (column "Condition" (normalize_col "Group" <$> df st)) = true →
  pg_pairwise_tests dv_col "Condition" "Group" "ID"
    (posthoc_data (normalized "Group" "Condition" (df st)) "ID" "Group" "Condition" dv_col)
    "bonferroni" = Raise e →
  loop_body dv_col st
  = (Raise e, posthoc_state "Group" "Condition" dv_col (a_p_unc r)
                (anova_written dv_col aov st)).
Proof.
  intros Hfit Hw Hrow Hp Hg Hc Htests. rewrite (body_interaction _ _ _ _ _ Hfit Hw Hrow).
  unfold mbind, M_bind. rewrite posthoc_run by done. simpl. by rewrite Htests.
Qed.

(** With the pairwise table at hand, the rest of the iteration is the
    five writes. *)
Lemma body_posthoc dv_col st aov sphericity r posthoc_results :
  run_mixed_anova (df st) "ID" "Group" "Condition" dv_col = Ok (aov, sphericity) →
  to_excel_error (sheets st) (dv_col +:+ "_Mixed_ANOVA") (TAnova aov) = None →
  interaction_row aov = Some r →
  PrimFloat.ltb (a_p_unc r) 0.001 = true →
  str_usable (column "Group" (df st)) = true →
  str_usable (column "Condition" (normalize_col "Group" <$> df st)) = true →
  let data :=
    posthoc_data (normalized "Group" "Condition" (df st)) "ID" "Group" "Condition" dv_col in
  pg_pairwise_tests dv_col "Condition" "Group" "ID" data "bonferroni" = Ok posthoc_results →
  loop_body dv_col st
  = write_sheets
      (posthoc_sheets dv_col posthoc_results
         (filled (λ g, compare_conditions_within_groups posthoc_results g
                         (levels_of "Condition" data)) (levels_of "Group" data))
         (filled (λ c, compare_groups_within_conditions posthoc_results c
                         (levels_of "Group" data)) (levels_of "Condition" data))
         (compare_interaction posthoc_results
            (calculate_means data "Group" "Condition" dv_col)).1
         (calculate_means data "Group" "Condition" dv_col))
      (posthoc_state "Group" "Condition" dv_col (a_p_unc r) (anova_written dv_col aov st)).
Proof.
  intros Hfit Hw Hrow Hp Hg Hc data Htests.
  rewrite (body_interaction _ _ _ _ _ Hfit Hw Hrow).
  unfold mbind at 1, M_bind at 1. rewrite posthoc_run by done. simpl.
  fold data. rewrite Htests. unfold posthoc_tables, posthoc_sheets. simpl.
  unfold mbind, M_bind.
  repeat match goal with
         | |- context [to_excel ?name ?t ?s] =>
             destruct (to_excel name t s) as [[[]|?] ?]; simpl; try done
         end.
Qed.

End iteration.

(** ** Every way an iteration can end *)

Section iteration_cases.
Context `{Pingouin} `{PyStr} `{ExcelWriter}.
Implicit Types (st : state) (dv_col : string).

Lemma loop_body_cases dv_col st :
  (∃ e, loop_body dv_col st = (Raise e, said (RunningAnova dv_col) st)) ∨
  (∃ e blank_left,
     loop_body dv_col st = (Raise e, refused blank_left (said (RunningAnova dv_col) st))) ∨
  (∃ aov, loop_body dv_col st
          = (Ok (), said (InteractionNotFound dv_col) (anova_written dv_col aov st))) ∨
  (∃ aov p, loop_body dv_col st
            = (Ok (), skipped_state dv_col p (anova_written dv_col aov st))) ∨
  (∃ aov p, loop_body dv_col st
            = (Raise "AttributeError",
               said (RunningPosthoc dv_col p) (anova_written dv_col aov st))) ∨
  (∃ aov p, loop_body dv_col st
            = (Raise "AttributeError",
               group_normalized_state "Group" dv_col p (anova_written dv_col aov st))) ∨
  (∃ aov p e, loop_body dv_col st
              = (Raise e, posthoc_state "Group" "Condition" dv_col p
                            (anova_written dv_col aov st))) ∨
  (∃ aov p posthoc_results condition_comparisons group_comparisons
     interaction_comparisons means,
     loop_body dv_col st
     = write_sheets (posthoc_sheets dv_col posthoc_results condition_comparisons
                       group_comparisons interaction_comparisons means)
         (posthoc_state "Group" "Condition" dv_col p (anova_written dv_col aov st))).
Proof.
  destruct (run_mixed_anova (df st) "ID" "Group" "Condition" dv_col)
    as [[aov sphericity]|e] eqn:Hfit.
  2: { left. exists e. by apply body_anova_fails. }
  right.
  destruct (to_excel_error (sheets st) (dv_col +:+ "_Mixed_ANOVA") (TAnova aov))
    as [[e blank_left]|] eqn:Hw.
  { left. exists e, blank_left. by eapply body_anova_refused. }
  right. destruct (interaction_row aov) as [r|] eqn:Hrow.
  2: { left. exists aov. by eapply body_no_interaction. }
  right. destruct (PrimFloat.ltb (a_p_unc r) 0.001) eqn:Hp.
  2: { left. exists aov, (a_p_unc r). by eapply body_not_significant. }
  right. destruct (str_usable (column "Group" (df st))) eqn:Hg.
  2: { left. exists aov, (a_p_unc r). by eapply body_group_unusable. }
  right.
  destruct (str_usable (column "Condition" (normalize_col "Group" <$> df st))) eqn:Hc.
  2: { left. exists aov, (a_p_unc r). by eapply body_condition_unusable. }
  right.
  destruct (pg_pairwise_tests dv_col "Condition" "Group" "ID"
              (posthoc_data (normalized "Group" "Condition" (df st))
                 "ID" "Group" "Condition" dv_col) "bonferroni")
    as [posthoc_results|e] eqn:Htests.
  - right. do 7 eexists. by eapply body_posthoc.
  - left. exists aov, (a_p_unc r), e. by eapply body_pairwise_fails.
Qed.

End iteration_cases.

(** ** What an iteration and a batch add to the state *)

Lemma prefix_sublist {X} (l1 l2 : list X) : l1 `prefix_of` l2 → l1 `sublist_of` l2.
Proof. intros [k ->]. by apply sublist_inserts_r. Qed.


Section growth.
Context `{Pingouin} `{PyStr} `{ExcelWriter}.
Implicit Types (st : state) (dv_col : string).
Local Open Scope list_scope.

Local Ltac not_complete :=
  let Hin := fresh in
  intros Hin; repeat (apply elem_of_cons in Hin as [Hin|Hin]; [discriminate|]);
  by apply elem_of_nil in Hin.

(** One iteration: the tables it adds are the first sheets of its column,
    in order; it prints the column first and never the closing line; it
    leaves at most one blank sheet, and none when it ends normally; it ends
    normally with one sheet or with six. *)
Lemma loop_body_summary dv_col st :
  ∃ new msgs,
    sheets (loop_body dv_col st).2 = sheets st ++ new ∧
    stdout (loop_body dv_col st).2 = stdout st ++ RunningAnova dv_col :: msgs ∧
    (AnalysisComplete ∉ msgs) ∧
    prefix (new.*1) (sheet_names dv_col) ∧
    (blanks st ≤ blanks (loop_body dv_col st).2 ≤ blanks st + 1)%nat ∧
    (if is_raise (loop_body dv_col st).1
     then (length new < 6)%nat
     else (length new = 1 ∨ length new = 6) ∧ blanks (loop_body dv_col st).2 = blanks st).
Proof.
  destruct (loop_body_cases dv_col st)
    as [(e & ->)|[(e & b & ->)|[(aov & ->)|[(aov & p & ->)|[(aov & p & ->)|
        [(aov & p & ->)|[(aov & p & e & ->)|
        (aov & p & ph & cc & gc & ic & means & ->)]]]]]]]; simpl.
  - exists [], []. rewrite app_nil_r.
    split_and!; [done|done|not_complete|apply prefix_nil|lia|lia|simpl; lia].
  - exists [], []. rewrite app_nil_r.
    split_and!; [done|done|not_complete|apply prefix_nil|lia|destruct b; lia|simpl; lia].
  - exists [(dv_col +:+ "_Mixed_ANOVA", TAnova aov)], [InteractionNotFound dv_col].
    split_and!; [done|by rewrite <-app_assoc|not_complete|by eexists|lia|lia|by left|done].
  - exists [(dv_col +:+ "_Mixed_ANOVA", TAnova aov)], [SkippingPosthoc dv_col p].
    split_and!; [done|by rewrite <-app_assoc|not_complete|by eexists|lia|lia|by left|done].
  - exists [(dv_col +:+ "_Mixed_ANOVA", TAnova aov)], [RunningPosthoc dv_col p].
    split_and!; [done|by rewrite <-app_assoc|not_complete|by eexists|lia|lia|simpl; lia].
  - exists [(dv_col +:+ "_Mixed_ANOVA", TAnova aov)], [RunningPosthoc dv_col p].
    split_and!; [done|by rewrite <-app_assoc|not_complete|by eexists|lia|lia|simpl; lia].
  - exists [(dv_col +:+ "_Mixed_ANOVA", TAnova aov)], [RunningPosthoc dv_col p].
    split_and!; [done|by rewrite <-app_assoc|not_complete|by eexists|lia|lia|simpl; lia].
  - destruct (write_sheets_summary
                (posthoc_sheets dv_col ph cc gc ic means)
                (posthoc_state "Group" "Condition" dv_col p (anova_written dv_col aov st)))
      as (done & Hsheets & Hpre & _ & Hout & Hblanks & Hend).
    simpl in *.
    exists ((dv_col +:+ "_Mixed_ANOVA", TAnova aov) :: done), [RunningPosthoc dv_col p].
    split_and!.
    + by rewrite Hsheets, <-app_assoc.
    + by rewrite Hout, <-app_assoc.
    + not_complete.
    + apply prefix_cons. destruct Hpre as [k Hk].
      exists (k.*1). change (_ = ?r) with ((posthoc_sheets dv_col ph cc gc ic means).*1 = r).
      by rewrite Hk, fmap_app.
    + lia.
    + lia.
    + destruct (is_raise _); simpl; [lia|]. destruct Hend as [-> ->]. split; [by right|done].
Qed.

(** A batch: the tables it adds carry sheet names of the requested
    columns, in their order; the closing line is not printed by the loop;
    a blank sheet is left at most once, and only by a batch that raised;
    a batch over at least one column that ended normally has written a
    table. *)
Lemma for_each_summary (cols : list string) st :
  ∃ new msgs,
    sheets (for_each cols loop_body st).2 = sheets st ++ new ∧
    stdout (for_each cols loop_body st).2 = stdout st ++ msgs ∧
    (AnalysisComplete ∉ msgs) ∧
    sublist (new.*1) (concat (sheet_names <$> cols)) ∧
    (blanks st ≤ blanks (for_each cols loop_body st).2 ≤ blanks st + 1)%nat ∧
    (is_raise (for_each cols loop_body st).1 = false →
     blanks (for_each cols loop_body st).2 = blanks st ∧ (cols ≠ [] → new ≠ [])) ∧
    (∀ dv_col cols', cols = dv_col :: cols' → ∃ msgs', msgs = RunningAnova dv_col :: msgs').
Proof.
  revert st. induction cols as [|dv_col cols IH]; intros st.
  - exists [], []. simpl. rewrite !app_nil_r.
    split_and!; [done|done|not_complete|done|lia|lia|done|done].
  - destruct (loop_body_summary dv_col st)
      as (new1 & msgs1 & Hsheets1 & Hout1 & Hmsgs1 & Hnames1 & Hblanks1 & Hend1).
    simpl. unfold mbind, M_bind.
    destruct (loop_body dv_col st) as [[[]|e] st1]; simpl in *.
    + destruct (IH st1)
        as (new2 & msgs2 & Hsheets2 & Hout2 & Hmsgs2 & Hnames2 & Hblanks2 & Hend2 & _).
      destruct Hend1 as [Hlen1 Hsame1].
      exists (new1 ++ new2), (RunningAnova dv_col :: msgs1 ++ msgs2). split_and!.
      * by rewrite Hsheets2, Hsheets1, app_assoc.
      * by rewrite Hout2, Hout1, <-app_assoc.
      * intros [?|[?|?]%elem_of_app]%elem_of_cons; [done|auto|auto].
      * rewrite fmap_app.
        apply (sublist_app (new1.*1) (sheet_names dv_col) (new2.*1)
                 (concat (sheet_names <$> cols))); [by apply prefix_sublist|done].
      * lia.
      * lia.
      * intros Hok. destruct (Hend2 Hok) as [-> _]. split; [done|].
        intros _. destruct new1; [|done]. simpl in Hlen1. lia.
      * intros dv' cols' [= <- <-]. by eexists.
    + exists new1, (RunningAnova dv_col :: msgs1). split_and!; try done; try lia.
      * intros [?|?]%elem_of_cons; [done|auto].
      * by apply (sublist_inserts_r (concat (sheet_names <$> cols)) (new1.*1)
                    (sheet_names dv_col)), prefix_sublist.
      * intros dv' cols' [= <- <-]. by eexists.
Qed.

(** The script is the loop, the exit of the [with] block and the closing
    line. *)
Lemma main_unfold (cols : list string) st :
  main cols st
  = (if book_empty (for_each cols loop_body st).2
     then (Raise "IndexError", (for_each cols loop_body st).2)
     else match (for_each cols loop_body st).1 with
          | Ok _ => (Ok (), said AnalysisComplete (for_each cols loop_body st).2)
          | Raise e => (Raise e, (for_each cols loop_body st).2)
          end).
Proof.
  unfold main, mbind, M_bind, with_writer, close_writer, print, said.
  destruct (for_each cols loop_body st) as [[[]|e] st1]; simpl;
    by destruct (book_empty st1).
Qed.

(** The loop stops at the first iteration that raises. *)
Lemma for_each_raise (pre : list string) dv_col (rest : list string)
    (st0 st st' : state) (e : exn) :
  for_each pre loop_body st0 = (Ok (), st) →
  loop_body dv_col st = (Raise e, st') →
  for_each (pre ++ dv_col :: rest) loop_body st0 = (Raise e, st').
Proof.
  revert st0. induction pre as [|x pre IH]; intros st0 Hpre Hbody; simpl in *.
  - injection Hpre as <-. unfold mbind, M_bind. by rewrite Hbody.
  - unfold mbind, M_bind in *.
    destruct (loop_body x st0) as [[[]|e'] st1]; [|done]. by apply IH.
Qed.

End growth.

(** ** The interaction gate *)

(** C1: the post-hoc computation is performed exactly when the interaction
    p-value is below 0.001.  Below it, the step prints that it runs the
    post-hoc tests, normalises the group labels and then the condition
    labels of the frame, calls the pairwise tests on the cleaned data, and
    returns the pairwise table, one matrix per group and per condition, the
    interaction rows and the means; it ends early only by an exception
    ([AttributeError] of a label column without strings, or that of the
    pairwise tests).  Not below it, no part of this is done: the step
    prints that it skips and returns five [None]s.  The comparison is
    strict, so at exactly 0.001 the post-hoc tests are skipped. *)
Theorem posthoc_runs_iff_below_threshold `{Pingouin} `{PyStr}
    (id_column group_col condition_col dv_col : string) (p : float) (st : state) :
  run_posthoc_tests_if_interaction_significant id_column group_col condition_col dv_col p st
  = (if PrimFloat.ltb p 0.001 then
       if str_usable (column group_col (df st)) then
         if str_usable (column condition_col (normalize_col group_col <$> df st)) then
           let st' := posthoc_state group_col condition_col dv_col p st in
           let data := posthoc_data (df st') id_column group_col condition_col dv_col in
           match pg_pairwise_tests dv_col condition_col group_col id_column data
                   "bonferroni" with
           | Ok posthoc_results =>
               (Ok (Some posthoc_results,
                    Some (filled (λ g, compare_conditions_within_groups posthoc_results g
                                         (levels_of condition_col data))
                                 (levels_of group_col data)),
                    Some (filled (λ c, compare_groups_within_conditions posthoc_results c
                                         (levels_of group_col data))
                                 (levels_of condition_col data)),
                    Some (compare_interaction posthoc_results
                            (calculate_means data group_col condition_col dv_col)).1,
                    Some (calculate_means data group_col condition_col dv_col)),
                st')
           | Raise e => (Raise e, st')
           end
         else (Raise "AttributeError", group_normalized_state group_col dv_col p st)
       else (Raise "AttributeError", said (RunningPosthoc dv_col p) st)
     else (Ok (None, None, None, None, None), skipped_state dv_col p st)) ∧
  all_absent (run_posthoc_tests_if_interaction_significant
                id_column group_col condition_col dv_col p st).1
    = negb (PrimFloat.ltb p 0.001) ∧
  all_present (run_posthoc_tests_if_interaction_significant
                 id_column group_col condition_col dv_col p st).1
    = PrimFloat.ltb p 0.001
      && negb (is_raise (run_posthoc_tests_if_interaction_significant
                           id_column group_col condition_col dv_col p st).1) ∧
  run_posthoc_tests_if_interaction_significant
    id_column group_col condition_col dv_col 0.001 st
    = (Ok (None, None, None, None, None), skipped_state dv_col 0.001 st).
Proof.
  split_and!; [| | |by apply posthoc_skipped];
    (destruct (PrimFloat.ltb p 0.001) eqn:Hp;
     [rewrite posthoc_entered by done|by rewrite posthoc_skipped]);
    destruct (str_usable (column group_col (df st))); [|done| |done| |done];
    destruct (str_usable (column condition_col (normalize_col group_col <$> df st)));
    [|done| |done| |done]; simpl;
    by destruct (pg_pairwise_tests _ _ _ _ _ _).
Qed.

(** ** The frame under the post-hoc step *)

(** C3, as stated, fails: [data] is the caller's frame and the two label
    assignments write to it.  After a post-hoc run with p = 0.0005 the
    caller's frame holds "ctl" where it held " Ctl". *)
Lemma frame_untouched_fails : ¬ frame_untouched.
Proof.
  intros Hsame.
  specialize (Hsame Sample.stub Sample.ascii_str "ID" "Group" "Condition" "Fz_Cz"
                0.0005%float (Sample.start Sample.frame)).
  apply (f_equal (fmap (λ r : Row, r !! "Group"))) in Hsame.
  by vm_compute in Hsame.
Qed.

(** C3, amended: the post-hoc step leaves the caller's frame unchanged
    when the interaction p-value is not below 0.001.  When it is below,
    the step writes to the caller's frame itself.  If the group column
    holds no string, the first assignment raises and the frame is
    unchanged.  Otherwise the group label of every row is replaced by its
    trimmed, lower-cased form (a cell that is not a string becomes
    missing); if the condition column then holds no string, the second
    assignment raises and the frame stays with the group labels normalised
    only.  Otherwise the condition labels are replaced likewise.  The rows,
    their order and all other columns stay as they were, also when the
    pairwise tests raise.  Later runs therefore read the labels as the
    last run left them. *)
Theorem posthoc_normalizes_callers_frame `{Pingouin} `{PyStr}
    (id_column group_col condition_col dv_col : string) (p : float) (st : state) :
  df (run_posthoc_tests_if_interaction_significant
        id_column group_col condition_col dv_col p st).2
    = (if PrimFloat.ltb p 0.001 then
         if str_usable (column group_col (df st)) then
           if str_usable (column condition_col (normalize_col group_col <$> df st)) then
             (λ r, <[condition_col := str_strip_lower (at_col (normalize_col group_col r)
                                                         condition_col)]>
                     (<[group_col := str_strip_lower (at_col r group_col)]> r)) <$> df st
           else (λ r, <[group_col := str_strip_lower (at_col r group_col)]> r) <$> df st
         else df st
       else df st).
Proof.
  destruct (PrimFloat.ltb p 0.001) eqn:Hp; [|by rewrite posthoc_skipped].
  rewrite posthoc_entered by done.
  destruct (str_usable (column group_col (df st))); [|done].
  destruct (str_usable (column condition_col (normalize_col group_col <$> df st)));
    [|done].
  simpl. destruct (pg_pairwise_tests _ _ _ _ _ _); simpl;
    unfold normalized; by rewrite <-list_fmap_compose.
Qed.

(** Groups coded as numbers: the first assignment raises, the frame is
    as it was and the pairwise tests are not called. *)
Example numeric_groups_raise :
  run_posthoc_tests_if_interaction_significant "ID" "Group" "Condition" "Fz_Cz" 0.0005
    (Sample.start Sample.frame_with_numeric_groups)
  = (Raise "AttributeError",
     {| df := Sample.frame_with_numeric_groups; sheets := [];
        stdout := [RunningPosthoc "Fz_Cz" 0.0005]; blanks := 0 |}).
Proof. vm_compute. reflexivity. Qed.

(** ** The loop over the dependent variables *)







(** C7, as stated, fails: nothing in the loop catches an exception.  The
    column "Oz" has no value at all, the model fit raises, and the column
    "Fz_Cz" after it is never processed. *)
Lemma batch_continues_after_failure_fails : ¬ batch_continues_after_failure.
Proof.
  intros Hgoes_on.
  specialize (Hgoes_on Sample.stub Sample.ascii_str Sample.title_checker "Oz" ["Fz_Cz"]
                (Sample.start Sample.frame_with_empty_column)
                (said (RunningAnova "Oz") (Sample.start Sample.frame_with_empty_column))
                "ValueError").
  apply (f_equal (λ out, is_raise out.1)) in Hgoes_on.
  - by vm_compute in Hgoes_on.
  - by vm_compute.
Qed.

(** C7, amended: when the statistics routine fails for a dependent
    variable, the failure is an explicit error, never an empty result, and
    it ends the whole batch: the iteration raises that exception, no
    remaining dependent variable is processed, whatever the remaining
    columns are, and the closing line is not printed.  The sheets written
    so far are kept, with at most the ANOVA sheet of the failing variable
    added.  The script ends with the exception of the statistics routine
    when the workbook holds a sheet by then; when it holds none, leaving
    the [with] block raises [IndexError] and the script ends with that
    one. *)
Theorem statistics_failure_aborts_batch `{Pingouin} `{PyStr} `{ExcelWriter}
    (pre : list string) (dv_col : string) (st0 st : state) (e : exn) :
  for_each pre loop_body st0 = (Ok (), st) →
  statistics_fail dv_col st e →
  ∃ st', loop_body dv_col st = (Raise e, st') ∧
         (∀ rest, main (pre ++ dv_col :: rest) st0
                  = (Raise (if book_empty st' then "IndexError" else e), st')) ∧
         (sheets st' = sheets st ∨
          ∃ aov, sheets st' = (sheets st ++ [(dv_col +:+ "_Mixed_ANOVA", TAnova aov)])%list) ∧
         blanks st' = blanks st ∧
         (AnalysisComplete ∈ stdout st' → AnalysisComplete ∈ stdout st).
Proof.
  intros Hpre Hfail.
  assert (∀ st', loop_body dv_col st = (Raise e, st') →
                 ∀ rest, main (pre ++ dv_col :: rest) st0
                         = (Raise (if book_empty st' then "IndexError" else e), st'))
    as Hmain.
  { intros st' Hbody rest. rewrite main_unfold.
    rewrite (for_each_raise pre dv_col rest st0 st st' e Hpre Hbody). simpl.
    by destruct (book_empty st'). }
  destruct Hfail as [Hfit|(aov & sphericity & r & Hfit & Hw & Hrow & Hp & Hg & Hc & Htests)].
  - exists (said (RunningAnova dv_col) st).
    pose proof (body_anova_fails _ _ _ Hfit) as Hbody.
    split_and!; [done|by apply Hmain|by left|done|].
    simpl. by intros [?|[=]%list_elem_of_singleton]%elem_of_app.
  - exists (posthoc_state "Group" "Condition" dv_col (a_p_unc r) (anova_written dv_col aov st)).
    pose proof (body_pairwise_fails _ _ _ _ _ _ Hfit Hw Hrow Hp Hg Hc Htests) as Hbody.
    split_and!; [done|by apply Hmain|right; by exists aov|done|].
    simpl.
    by intros [[?|[=]%list_elem_of_singleton]%elem_of_app
              |[=]%list_elem_of_singleton]%elem_of_app.
Qed.

Lemma statistics_failure_aborts_batch_witness :
  ∃ st', loop_body "Oz" (Sample.start Sample.frame_with_empty_column)
         = (Raise "ValueError", st') ∧
         (∀ rest, main ([] ++ "Oz" :: rest) (Sample.start Sample.frame_with_empty_column)
                  = (Raise (if book_empty st' then "IndexError" else "ValueError"), st')) ∧
         (sheets st' = sheets (Sample.start Sample.frame_with_empty_column) ∨
          ∃ aov, sheets st' = (sheets (Sample.start Sample.frame_with_empty_column)
                               ++ [("Oz" +:+ "_Mixed_ANOVA", TAnova aov)])%list) ∧
         blanks st' = blanks (Sample.start Sample.frame_with_empty_column) ∧
         (AnalysisComplete ∈ stdout st' →
          AnalysisComplete ∈ stdout (Sample.start Sample.frame_with_empty_column)).
Proof.
  apply (statistics_failure_aborts_batch [] "Oz"
           (Sample.start Sample.frame_with_empty_column)
           (Sample.start Sample.frame_with_empty_column) "ValueError").
  - reflexivity.
  - left. vm_compute. reflexivity.
Defined.

(** The failing column is the first one: no sheet is written, and the
    script ends with the [IndexError] of the exit. *)
Example failure_before_any_sheet :
  main ["Oz"; "Fz_Cz"] (Sample.start Sample.frame_with_empty_column)
  = (Raise "IndexError",
     {| df := Sample.frame_with_empty_column; sheets := [];
        stdout := [RunningAnova "Oz"]; blanks := 0 |}).
Proof. vm_compute. reflexivity. Qed.

(** A column name with a slash: the writer refuses the first sheet, the
    workbook is saved with one blank sheet and the script ends with the
    writer's exception. *)
Example slash_column_leaves_blank_sheet :
  main ["Fz/Cz"; "Fz_Cz"] (Sample.start Sample.frame_with_slash_column)
  = (Raise "ValueError",
     {| df := Sample.frame_with_slash_column; sheets := [];
        stdout := [RunningAnova "Fz/Cz"]; blanks := 1 |}).
Proof. vm_compute. reflexivity. Qed.

(** ** The fixed level of a matrix builder *)

Lemma foldl_insert_lookup {V} (build : label → V) (keys : list label)
    (m : gmap label V) (k : label) :
  foldl (λ acc k', <[k' := build k']> acc) m keys !! k
  = if decide (k ∈ keys) then Some (build k) else m !! k.
Proof.
  revert m. induction keys as [|k' keys IH]; intros m.
  - case_decide as Hin; [by apply elem_of_nil in Hin|done].
  - change (foldl (λ acc k', <[k' := build k']> acc) m (k' :: keys))
      with (foldl (λ acc k', <[k' := build k']> acc) (<[k' := build k']> m) keys).
    rewrite IH. destruct (decide (k ∈ keys)) as [Hin|Hnotin].
    + by rewrite decide_True by (by right).
    + destruct (decide (k' = k)) as [->|Hne].
      * by rewrite decide_True, lookup_insert_eq by (by left).
      * rewrite lookup_insert_ne by done.
        rewrite decide_False; [done|]. by intros [->|?]%elem_of_cons.
Qed.

Lemma filled_lookup {V} (build : label → V) (keys : list label) (k : label) (v : V) :
  filled build keys !! k = Some v → v = build k.
Proof.
  unfold filled. rewrite foldl_insert_lookup.
  destruct (decide (k ∈ keys)); [congruence|by rewrite lookup_empty].
Qed.

(** C10: neither matrix builder reads its fixed level.  The condition-pair
    matrix is the same for any two groups and the group-pair matrix is the
    same for any two conditions, for every table and level list; so in the
    result of a post-hoc run all matrices kept per group are one and the
    same matrix, and so are all matrices kept per condition. *)
Theorem matrix_builders_ignore_fixed_level :
  (∀ (rows : list PosthocRow) (g1 g2 : label) (conditions : list label),
     compare_conditions_within_groups rows g1 conditions
     = compare_conditions_within_groups rows g2 conditions) ∧
  (∀ (rows : list PosthocRow) (c1 c2 : label) (groups : list label),
     compare_groups_within_conditions rows c1 groups
     = compare_groups_within_conditions rows c2 groups) ∧
  (∀ (pg : Pingouin) (ps : PyStr)
     (id_column group_col condition_col dv_col : string) (p : float)
     (st st' : state) posthoc_results condition_comparisons group_comparisons
     interaction_comparisons means,
     run_posthoc_tests_if_interaction_significant id_column group_col condition_col dv_col p st
     = (Ok (posthoc_results, Some condition_comparisons, Some group_comparisons,
            interaction_comparisons, means), st') →
     (∀ g1 g2 m1 m2, condition_comparisons !! g1 = Some m1 →
                     condition_comparisons !! g2 = Some m2 → m1 = m2) ∧
     (∀ c1 c2 m1 m2, group_comparisons !! c1 = Some m1 →
                     group_comparisons !! c2 = Some m2 → m1 = m2)).
Proof.
  split_and!.
  - intros. by rewrite !compare_conditions_pair_matrix.
  - intros. by rewrite !compare_groups_pair_matrix.
  - intros pg ps id_column group_col condition_col dv_col p st st' ph cc gc ic means Hrun.
    apply posthoc_ok_inv in Hrun as (_ & rows & _ & Htables).
    unfold posthoc_tables in Htables.
    pose proof (f_equal (λ t, t.1.1.1.2) Htables) as Hcc.
    pose proof (f_equal (λ t, t.1.1.2) Htables) as Hgc.
    simpl in Hcc, Hgc. apply (inj Some) in Hcc, Hgc. subst cc gc. split.
    + intros g1 g2 m1 m2 ->%filled_lookup ->%filled_lookup.
      by rewrite !compare_conditions_pair_matrix.
    + intros c1 c2 m1 m2 ->%filled_lookup ->%filled_lookup.
      by rewrite !compare_groups_pair_matrix.
Qed.

Lemma matrix_builders_ignore_fixed_level_witness :
  compare_conditions_within_groups Sample.pairwise (Some "ctl") [Some "pre"; Some "post"]
  = compare_conditions_within_groups Sample.pairwise (Some "trt") [Some "pre"; Some "post"].
Proof.
  refine (proj1 (proj2 (proj2 matrix_builders_ignore_fixed_level) Sample.stub
            Sample.ascii_str
            "ID" "Group" "Condition" "Fz_Cz" 0.0005%float (Sample.start Sample.frame)
            _ _ _ _ _ _ _) (Some "ctl") (Some "trt") _ _ _ _).
  - vm_compute. reflexivity.
  - vm_compute. reflexivity.
  - vm_compute. reflexivity.
Defined.

(** ** Listwise deletion before the model fit *)

Section deletion.
Implicit Types (r : Row) (cols : list string) (data : DataFrame).

Lemma select_row_lookup cols r (c : string) :
  select_row cols r !! c = if decide (c ∈ cols) then Some (at_col r c) else None.
Proof.
  unfold select_row. induction cols as [|c' cols IH].
  - by rewrite decide_False by apply not_elem_of_nil.
  - rewrite fmap_cons, list_to_map_cons. simpl.
    destruct (decide (c' = c)) as [->|Hne].
    + by rewrite lookup_insert_eq, decide_True by (by left).
    + rewrite lookup_insert_ne, IH by done.
      destruct (decide (c ∈ cols)) as [Hin|Hnotin].
      * by rewrite decide_True by (by right).
      * rewrite decide_False; [done|]. by intros [->|?]%elem_of_cons.
Qed.

(** A selected row is complete when the listed cells of the original are. *)
Lemma row_complete_select cols r :
  row_complete (select_row cols r) = forallb (λ c, negb (isna (at_col r c))) cols.
Proof.
  apply eq_true_iff_eq. unfold row_complete. rewrite !forallb_forall. split.
  - intros Hall c Hc%list_elem_of_In.
    apply (Hall (c, at_col r c)), list_elem_of_In, elem_of_map_to_list.
    by rewrite select_row_lookup, decide_True.
  - intros Hall [c v] Hcv%list_elem_of_In%elem_of_map_to_list.
    rewrite select_row_lookup in Hcv.
    destruct (decide (c ∈ cols)) as [Hc|]; [|done].
    injection Hcv as <-. by apply Hall, list_elem_of_In.
Qed.

Lemma dropna_select cols data :
  dropna (select cols data) = select cols (dropna_subset cols data).
Proof.
  unfold dropna, select, dropna_subset.
  induction data as [|r data IH]; [done|].
  rewrite fmap_cons. simpl. rewrite row_complete_select, IH.
  by destruct (forallb _ cols).
Qed.

End deletion.

(** C8, as stated, fails: the deletion looks at all four selected columns.
    An observation whose group label is missing is dropped although its
    dependent variable is present. *)
Lemma only_missing_dv_dropped_fails : ¬ only_missing_dv_dropped.
Proof.
  intros Hkept.
  specialize (Hkept Sample.frame_without_group "ID" "Group" "Condition" "Fz_Cz"
                (Sample.observation (Str "s1") NA (Str "pre") (Num 1) (Num 1))).
  apply (list_elem_of_fmap_2 (λ r : Row, r !! "Condition")) in Hkept.
  - vm_compute in Hkept. by apply list_elem_of_singleton in Hkept.
  - by left.
  - by vm_compute.
Qed.

(** C8, amended: the frame the mixed model is fitted on consists of the
    four selected columns (subject, group, condition, dependent variable)
    of exactly those observations that have a value in all four of them, in
    their original order; an observation is dropped exactly when its
    dependent variable, its subject identifier, its group label or its
    condition label is missing.  The deletion is made on a new frame for
    this one call. *)
Theorem anova_input_listwise_deletion `{Pingouin}
    (data : DataFrame) (id_column group_col condition_col dv_col : string) :
  let cols := [id_column; group_col; condition_col; dv_col] in
  run_mixed_anova data id_column group_col condition_col dv_col
  = (pg_mixed_anova dv_col condition_col group_col id_column
       (aov_data data id_column group_col condition_col dv_col) "auto"
     ≫= λ aov, check_sphericity (aov_data data id_column group_col condition_col dv_col)
                 id_column condition_col dv_col
     ≫= λ sphericity, mret (aov, sphericity)) ∧
  aov_data data id_column group_col condition_col dv_col
  = select_row cols <$>
    List.filter (λ r, negb (isna (at_col r id_column)) && negb (isna (at_col r group_col)) &&
                      negb (isna (at_col r condition_col)) && negb (isna (at_col r dv_col)))
                data.
Proof.
  intros cols. split; [done|].
  unfold aov_data. rewrite dropna_select. unfold select, dropna_subset. f_equal.
  apply List.filter_ext. intros r. simpl.
  by destruct (isna (at_col r id_column)), (isna (at_col r group_col)),
       (isna (at_col r condition_col)), (isna (at_col r dv_col)).
Qed.

(** ** The means table *)

Section means.
Context `{Pingouin}.
Implicit Types (data : DataFrame) (l : list string) (k : string * string).

Lemma elem_of_sort_unique l (x : string) : x ∈ sort_unique l ↔ x ∈ l.
Proof.
  unfold sort_unique. by rewrite merge_sort_Permutation, elem_of_remove_dups.
Qed.

Lemma position_elem_of l (x : string) :
  x ∈ l → ∃ i, position x l = Some i ∧ l !! i = Some x.
Proof.
  intros Hx. unfold position.
  destruct (list_find_elem_of (λ y, y = x) l x Hx eq_refl) as [[i y] Hfind].
  rewrite Hfind. apply list_find_Some in Hfind as (Hi & -> & _). by exists i.
Qed.

Lemma position_not_elem_of l (x : string) : x ∉ l → position x l = None.
Proof.
  intros Hx. unfold position.
  destruct (list_find (λ y, y = x) l) as [[i y]|] eqn:Hfind; [|done].
  apply list_find_Some in Hfind as (Hi & -> & _).
  by apply list_elem_of_lookup_2 in Hi.
Qed.

(** A table laid out from [cell] has [cell g c] at every crossing. *)
Lemma means_at_grid (idx cols : list string) (cell : string → string → float)
    (g c : string) :
  means_at {| index := idx; columns := cols;
              cells := (λ g, (λ c, cell g c) <$> cols) <$> idx |} g c
  = if decide (g ∈ idx ∧ c ∈ cols) then Some (cell g c) else None.
Proof.
  unfold means_at; simpl. case_decide as Hgc.
  - destruct Hgc as [Hg Hc].
    destruct (position_elem_of idx g Hg) as (i & -> & Hi).
    destruct (position_elem_of cols c Hc) as (j & -> & Hj). simpl.
    rewrite list_lookup_fmap, Hi. simpl. by rewrite list_lookup_fmap, Hj.
  - destruct (decide (g ∈ idx)) as [Hg|Hg].
    + destruct (position_elem_of idx g Hg) as (i & -> & Hi). simpl.
      rewrite position_not_elem_of; [done|]. naive_solver.
    + by rewrite (position_not_elem_of idx g Hg).
Qed.

(** A series built from its keys is read back key by key. *)
Lemma series_lookup (ks : list (string * string)) (value : string * string → float) k :
  (list_to_map ((λ k, (k, value k)) <$> ks) : gmap (string * string) float) !! k
  = if decide (k ∈ ks) then Some (value k) else None.
Proof.
  case_decide as Hk.
  - apply elem_of_list_to_map_1'.
    + by intros y (k' & [= <- ->] & _)%list_elem_of_fmap.
    + apply list_elem_of_fmap. by exists k.
  - apply not_elem_of_list_to_map_1. rewrite <-list_fmap_compose.
    by rewrite list_fmap_id.
Qed.

(** The keys of the grouped series are the keys that occur in the data. *)
Lemma groupby_mean_keys data (group_col condition_col dv_col : string) k :
  k ∈ (groupby_mean data group_col condition_col dv_col).*1
  ↔ k ∈ omap (group_key group_col condition_col) data.
Proof.
  unfold groupby_mean. rewrite <-list_fmap_compose, list_fmap_id.
  rewrite list_elem_of_In, filter_In, <-!list_elem_of_In, bool_decide_eq_true.
  split; [by intros [_ ?]|]. intros Hk. split; [|done].
  destruct k as [g c]. rewrite <-list_cprod_list_prod, list_elem_of_cprod. simpl.
  rewrite !elem_of_sort_unique, !list_elem_of_fmap.
  split; by eexists (_, _).
Qed.

Lemma group_values_unobserved data (group_col condition_col dv_col : string) k :
  k ∉ omap (group_key group_col condition_col) data →
  group_values data group_col condition_col dv_col k = [].
Proof.
  intros Hk. unfold group_values.
  induction data as [|r data IH]; [done|]. simpl in *.
  destruct (group_key group_col condition_col r) as [k'|] eqn:Hr.
  - rewrite bool_decide_eq_false_2; [apply IH|]; set_solver.
  - rewrite bool_decide_eq_false_2; [by apply IH|done].
Qed.

Lemma calculate_means_index data (group_col condition_col dv_col : string) (g : string) :
  g ∈ index (calculate_means data group_col condition_col dv_col)
  ↔ g ∈ (omap (group_key group_col condition_col) data).*1.
Proof.
  unfold calculate_means, unstack; simpl.
  rewrite elem_of_sort_unique, !list_elem_of_fmap.
  split; intros (k & -> & Hk); exists k; (split; [done|]).
  - apply list_elem_of_fmap in Hk as (kv & -> & Hkv).
    apply (groupby_mean_keys data group_col condition_col dv_col).
    apply list_elem_of_fmap. by exists kv.
  - by apply groupby_mean_keys.
Qed.

Lemma calculate_means_columns data (group_col condition_col dv_col : string) (c : string) :
  c ∈ columns (calculate_means data group_col condition_col dv_col)
  ↔ c ∈ (omap (group_key group_col condition_col) data).*2.
Proof.
  unfold calculate_means, unstack; simpl.
  rewrite elem_of_sort_unique, !list_elem_of_fmap.
  split; intros (k & -> & Hk); exists k; (split; [done|]).
  - apply list_elem_of_fmap in Hk as (kv & -> & Hkv).
    apply (groupby_mean_keys data group_col condition_col dv_col).
    apply list_elem_of_fmap. by exists kv.
  - by apply groupby_mean_keys.
Qed.

End means.

(** C9, as stated, fails: [unstack] builds a full grid.  The treated group
    was never measured at "post", yet the means table has the cell
    ("trt", "post"), filled with NaN. *)
Lemma means_keys_are_observed_pairs_fails : ¬ means_keys_are_observed_pairs.
Proof.
  intros Hkeys.
  destruct (Hkeys Sample.stub Sample.unbalanced_frame "Group" "Condition" "Fz_Cz"
              "trt" "post") as [Hobserved _].
  destruct Hobserved as (r & Hr & Hkey & _).
  - exists PrimFloat.nan. by vm_compute.
  - unfold Sample.unbalanced_frame in Hr.
    repeat (apply elem_of_cons in Hr as [->|Hr]); try (by vm_compute in Hkey).
    by apply elem_of_nil in Hr.
Qed.

(** C9, amended: the means table is a full grid.  Its rows are the groups
    and its columns the conditions that occur in some observation with both
    labels present, and it has a cell for every such group and every such
    condition, and no other.  The cell of a pair holds the average of the
    non-missing values of the dependent variable among the observations of
    that pair, and NaN when there is none, be it that the pair never occurs
    or that all its values are missing. *)
Theorem means_table_is_full_grid `{Pingouin}
    (data : DataFrame) (group_col condition_col dv_col : string) (g c : string) :
  let keys := omap (group_key group_col condition_col) data in
  let means := calculate_means data group_col condition_col dv_col in
  (g ∈ index means ↔ g ∈ keys.*1) ∧
  (c ∈ columns means ↔ c ∈ keys.*2) ∧
  means_at means g c
  = if decide (g ∈ keys.*1 ∧ c ∈ keys.*2)
    then Some (match List.filter (λ x, negb (PrimFloat.is_nan x))
                       (group_values data group_col condition_col dv_col (g, c)) with
               | [] => PrimFloat.nan
               | ys => average ys
               end)
    else None.
Proof.
  intros keys means.
  pose proof (calculate_means_index data group_col condition_col dv_col g) as Hindex.
  pose proof (calculate_means_columns data group_col condition_col dv_col c) as Hcolumns.
  split_and!; [done..|].
  fold keys means in Hindex, Hcolumns.
  assert (means_at means g c
          = if decide (g ∈ index means ∧ c ∈ columns means)
            then Some (default PrimFloat.nan
                         ((list_to_map (groupby_mean data group_col condition_col dv_col)
                           : gmap (string * string) float) !! (g, c)))
            else None) as ->.
  { apply (means_at_grid (index means) (columns means)
             (λ g c, default PrimFloat.nan
                       ((list_to_map (groupby_mean data group_col condition_col dv_col)
                         : gmap (string * string) float) !! (g, c)))). }
  rewrite (decide_ext _ (g ∈ keys.*1 ∧ c ∈ keys.*2)) by (by rewrite Hindex, Hcolumns).
  case_decide as Hgc; [|done]. f_equal.
  unfold groupby_mean. rewrite series_lookup. fold keys.
  case_decide as Hk; simpl; [done|].
  rewrite group_values_unobserved; [done|].
  intros Hin. apply Hk.
  rewrite list_elem_of_In, filter_In, <-!list_elem_of_In, bool_decide_eq_true.
  split; [|done].
  rewrite <-list_cprod_list_prod, list_elem_of_cprod. simpl.
  by rewrite !elem_of_sort_unique.
Qed.


(** * Further properties *)

(** ** Strings: appending and reversal *)

Section strings.
Implicit Types (s t u : string) (a : ascii).

Lemma append_cons a s t : String a s +:+ t = String a (s +:+ t).
Proof. reflexivity. Qed.

Lemma append_nil_r s : s +:+ "" = s.
Proof. induction s as [|a s IH]; [done|]. by rewrite append_cons, IH. Qed.

Lemma append_assoc s t u : (s +:+ t) +:+ u = s +:+ (t +:+ u).
Proof. induction s as [|a s IH]; [done|]. by rewrite !append_cons, IH. Qed.

Lemma rev_app_append s t : String.rev_app s t = String.rev s +:+ t.
Proof.
  unfold String.rev. revert t. induction s as [|a s IH]; intros t; [done|].
  simpl. rewrite IH, (IH (String a "")). by rewrite append_assoc.
Qed.

Lemma rev_app_rev_app s t u :
  String.rev_app (String.rev_app s t) u = String.rev_app t (s +:+ u).
Proof.
  revert t u. induction s as [|a s IH]; intros t u; [done|].
  simpl. by rewrite IH.
Qed.

Lemma rev_involutive s : String.rev (String.rev s) = s.
Proof. unfold String.rev. rewrite rev_app_rev_app. simpl. apply append_nil_r. Qed.

Lemma rev_append s t : String.rev (s +:+ t) = String.rev t +:+ String.rev s.
Proof.
  assert (∀ u, String.rev_app (s +:+ t) u = String.rev_app t (String.rev_app s u)) as Happ.
  { induction s as [|a s IH]; intros u; [done|]. rewrite append_cons. simpl. apply IH. }
  unfold String.rev at 1. by rewrite Happ, rev_app_append.
Qed.

End strings.

(** ** Batches *)

Section batch.
Context `{Pingouin} `{PyStr} `{ExcelWriter}.
Implicit Types (st : state) (dv_col : string) (cols : list string).
Local Open Scope list_scope.

(** X3: an iteration never touches a table that is already written.  The
    tables it adds are the first sheets of its own variable, in the fixed
    order ANOVA, post-hoc table, condition matrices, group matrices,
    interaction table, means.  When it ends normally it has added the
    ANOVA sheet alone or all six, and no blank sheet; when it raises it
    has added fewer than six, and at most one blank sheet is left by the
    write that was refused. *)
Theorem iteration_appends_own_sheets dv_col st :
  ∃ new,
    sheets (loop_body dv_col st).2 = sheets st ++ new ∧
    prefix (new.*1) (sheet_names dv_col) ∧
    (blanks st ≤ blanks (loop_body dv_col st).2 ≤ blanks st + 1)%nat ∧
    (if is_raise (loop_body dv_col st).1
     then (length new < 6)%nat
     else (length new = 1 ∨ length new = 6) ∧ blanks (loop_body dv_col st).2 = blanks st).
Proof.
  destruct (loop_body_summary dv_col st) as (new & msgs & Hsheets & _ & _ & Hnames & Hn).
  by exists new.
Qed.

(** X4: over a whole batch the tables written only grow, and every table
    added carries the name of one of the six sheets of a requested column;
    the added tables come in the order of the columns.  Besides them the
    workbook gains at most one blank sheet, and none in a batch whose loop
    ended normally. *)
Theorem batch_appends_requested_sheets cols st :
  ∃ new,
    sheets (main cols st).2 = sheets st ++ new ∧
    sublist (new.*1) (concat (sheet_names <$> cols)) ∧
    (blanks st ≤ blanks (main cols st).2 ≤ blanks st + 1)%nat ∧
    (is_raise (for_each cols loop_body st).1 = true ∨
     blanks (main cols st).2 = blanks st).
Proof.
  destruct (for_each_summary cols st)
    as (new & msgs & Hsheets & _ & _ & Hnames & Hblanks & Hend & _).
  exists new. rewrite main_unfold.
  destruct (book_empty (for_each cols loop_body st).2);
    [|destruct (for_each cols loop_body st).1 as [[]|e] eqn:Hout]; simpl;
    (split_and!; [done|done|lia|lia|]);
    destruct (is_raise (for_each cols loop_body st).1) eqn:Hraise;
    try (by left); try (right; by destruct Hend); by rewrite Hout in Hraise.
Qed.

(** X5: the closing line "analysis complete" is printed exactly when the
    script does not end with an exception, and then it is the last line;
    nothing printed before is removed.  The script ends with an exception
    exactly when an iteration raised or the workbook holds no sheet when
    the [with] block is left, as for an empty list of columns. *)
Theorem batch_reports_completion_iff_no_failure cols st :
  (∃ msgs,
     stdout (main cols st).2
     = stdout st ++ msgs ++
       (if is_raise (main cols st).1 then [] else [AnalysisComplete]) ∧
     AnalysisComplete ∉ msgs) ∧
  is_raise (main cols st).1
  = is_raise (for_each cols loop_body st).1 || book_empty (for_each cols loop_body st).2 ∧
  main [] {| df := df st; sheets := []; stdout := stdout st; blanks := 0 |}
  = (Raise "IndexError", {| df := df st; sheets := []; stdout := stdout st; blanks := 0 |}).
Proof.
  destruct (for_each_summary cols st) as (new & msgs & _ & Hout & Hmsgs & _).
  split_and!; [exists msgs; split; [|done]| |done]; rewrite main_unfold;
    destruct (book_empty (for_each cols loop_body st).2);
    destruct (for_each cols loop_body st).1 as [[]|e]; simpl;
    rewrite ?Hout, ?app_nil_r, ?app_assoc; done.
Qed.

End batch.

(** ** Sheet names *)

Lemma rev_inj (s t : string) : String.rev s = String.rev t → s = t.
Proof. intros Hrev. by rewrite <-(rev_involutive s), Hrev, rev_involutive. Qed.

(** A sheet name tells its column and its table. *)
Lemma sheet_name_inj (dv1 dv2 suffix1 suffix2 : string) :
  suffix1 ∈ sheet_suffixes → suffix2 ∈ sheet_suffixes →
  dv1 +:+ suffix1 = dv2 +:+ suffix2 → dv1 = dv2 ∧ suffix1 = suffix2.
Proof.
  intros H1 H2 Hname. apply (f_equal String.rev) in Hname.
  rewrite !rev_append in Hname.
  enough (String.rev dv1 = String.rev dv2 ∧ suffix1 = suffix2) as [?%rev_inj ?]; [done|].
  revert Hname. generalize (String.rev dv1) (String.rev dv2). intros x1 x2.
  unfold sheet_suffixes in H1, H2.
  repeat (apply elem_of_cons in H1 as [->|H1]); [..|by apply elem_of_nil in H1];
    (repeat (apply elem_of_cons in H2 as [->|H2]); [..|by apply elem_of_nil in H2]);
    cbv [String.rev String.rev_app String.append]; intros Hname;
    by simplify_eq.
Qed.

Lemma sheet_names_NoDup (cols : list string) :
  NoDup cols → NoDup (concat (sheet_names <$> cols)).
Proof.
  induction 1 as [|dv_col cols Hfresh Hcols IH]; [constructor|].
  change (concat (sheet_names <$> dv_col :: cols))
    with (sheet_names dv_col ++ concat (sheet_names <$> cols))%list.
  apply NoDup_app. split_and!; [| |done].
  - unfold sheet_names. apply (NoDup_fmap_2 _).
    apply (bool_decide_unpack _). by vm_compute.
  - intros name (suffix1 & -> & Hs1)%list_elem_of_fmap Hin.
    apply list_elem_of_In, in_concat in Hin as (names & Hnames & Hname).
    apply list_elem_of_In in Hnames, Hname.
    apply list_elem_of_fmap in Hnames as (dv' & -> & Hdv').
    apply list_elem_of_fmap in Hname as (suffix2 & Hname & Hs2).
    apply sheet_name_inj in Hname as [-> _]; done.
Qed.

(** X7: when the requested columns are pairwise distinct, no two sheets a
    batch adds share a name: a sheet name determines both its column and
    its table. *)
Theorem batch_sheet_names_distinct `{Pingouin} `{PyStr} `{ExcelWriter}
    (cols : list string) (st : state) :
  NoDup cols →
  ∃ new, sheets (main cols st).2 = (sheets st ++ new)%list ∧ NoDup (new.*1).
Proof.
  intros Hcols.
  destruct (for_each_summary cols st) as (new & msgs & Hsheets & _ & _ & Hnames & _).
  exists new. split.
  - rewrite main_unfold.
    by destruct (book_empty (for_each cols loop_body st).2);
      [|destruct (for_each cols loop_body st).1 as [[]|e]].
  - eapply sublist_NoDup; [|done]. by apply sheet_names_NoDup.
Qed.

Lemma batch_sheet_names_distinct_witness :
  ∃ new, sheets (main ["Fz_Cz"; "Cz_Pz"] (Sample.start Sample.frame)).2
         = (sheets (Sample.start Sample.frame) ++ new)%list ∧ NoDup (new.*1).
Proof.
  apply (batch_sheet_names_distinct ["Fz_Cz"; "Cz_Pz"] (Sample.start Sample.frame)).
  apply (bool_decide_unpack _). by vm_compute.
Defined.

(** ** Keys and entries of the comparison matrices *)

Section entries.
Implicit Types (rows : list PosthocRow) (levels : list label) (c : label) (k : string).

Lemma foldl_store_pair_is_Some kind rows (l : list (label * label))
    (m : gmap string pvalue) k :
  is_Some (foldl (store_pair kind rows) m l !! k) ↔
  is_Some (m !! k) ∨ ∃ a b, (a, b) ∈ l ∧ label_ne a b = true ∧ pair_key a b = k.
Proof.
  revert m. induction l as [|[a b] l IH]; intros m; simpl.
  - split; [by left|]. intros [?|(a & b & Hin & _)]; [done|]. by apply elem_of_nil in Hin.
  - rewrite IH. unfold store_pair; simpl. split.
    + intros [Hm|(a' & b' & Hin & Hne & Hk)].
      * destruct (label_ne a b) eqn:Hab; [|by left].
        destruct (decide (pair_key a b = k)) as [<-|Hk].
        { right. exists a, b. split_and!; [by left|done..]. }
        { left. by rewrite lookup_insert_ne in Hm. }
      * right. exists a', b'. split_and!; [by right|done..].
    + intros [Hm|(a' & b' & [[= -> ->]|Hin]%elem_of_cons & Hne & Hk)].
      * left. destruct (label_ne a b); [|done].
        destruct (decide (pair_key a b = k)) as [<-|Hk].
        { by rewrite lookup_insert_eq. }
        { by rewrite lookup_insert_ne. }
      * left. by rewrite Hne, <-Hk, lookup_insert_eq.
      * right. by exists a', b'.
Qed.

Lemma pair_matrix_is_Some kind rows levels k :
  is_Some (pair_matrix kind rows levels !! k) ↔
  ∃ a b, a ∈ levels ∧ b ∈ levels ∧ label_ne a b = true ∧ pair_key a b = k.
Proof.
  unfold pair_matrix. rewrite foldl_store_pair_is_Some, lookup_empty. split.
  - intros [[? [=]]|(a & b & [Ha Hb]%elem_of_pairs & Hne & Hk)]. by exists a, b.
  - intros (a & b & Ha & Hb & Hne & Hk). right. exists a, b.
    split_and!; [by apply elem_of_pairs|done..].
Qed.

(** Every entry was stored for some pair of levels with that key. *)
Lemma foldl_store_pair_entry kind rows (l : list (label * label))
    (m : gmap string pvalue) k (v : pvalue) :
  foldl (store_pair kind rows) m l !! k = Some v →
  m !! k = Some v ∨
  ∃ a b, (a, b) ∈ l ∧ label_ne a b = true ∧ pair_key a b = k ∧
         v = first_match kind rows a b.
Proof.
  revert m. induction l as [|[a b] l IH]; intros m; simpl; [by left|].
  intros [Hm|(a' & b' & Hin & Hne & Hk & Hv)]%IH.
  - unfold store_pair in Hm; simpl in Hm.
    destruct (label_ne a b) eqn:Hab; [|by left].
    destruct (decide (pair_key a b = k)) as [<-|Hk].
    + rewrite lookup_insert_eq in Hm. injection Hm as <-.
      right. exists a, b. split_and!; [by left|done..].
    + left. by rewrite lookup_insert_ne in Hm.
  - right. exists a', b'. split_and!; [by right|done..].
Qed.

Lemma label_eq_true (x y : label) :
  label_eq x y = true → ∃ s : string, x = Some s ∧ y = Some s.
Proof.
  destruct x as [s|], y as [t|]; simpl; try done.
  intros ->%bool_decide_eq_true. by exists t.
Qed.

Lemma pair_matrix_entry kind rows levels k (p : float) :
  pair_matrix kind rows levels !! k = Some (P p) →
  ∃ r (a b : string),
    r ∈ rows ∧ Contrast r = kind ∧ p_unc r = p ∧
    Some a ∈ levels ∧ Some b ∈ levels ∧ a ≠ b ∧
    ((A r = Some a ∧ B r = Some b) ∨ (A r = Some b ∧ B r = Some a)) ∧
    k = a +:+ " vs " +:+ b.
Proof.
  unfold pair_matrix.
  intros [Hm|(a & b & [Ha Hb]%elem_of_pairs & Hne & Hk & Hv)]%foldl_store_pair_entry.
  { by rewrite lookup_empty in Hm. }
  rewrite first_match_find in Hv.
  destruct (List.find _ rows) as [r|] eqn:Hfind; [|done].
  apply find_some in Hfind as [Hr%list_elem_of_In Hmask].
  apply (f_equal entry_value) in Hv. simpl in Hv.
  unfold pair_mask in Hmask.
  apply andb_true_iff in Hmask as [Hkind%bool_decide_eq_true Hab].
  assert (∃ x y : string, a = Some x ∧ b = Some y ∧
            ((A r = Some x ∧ B r = Some y) ∨ (A r = Some y ∧ B r = Some x)))
    as (x & y & -> & -> & HAB).
  { apply orb_true_iff in Hab as [[H1 H2]%andb_true_iff|[H1 H2]%andb_true_iff];
      apply label_eq_true in H1 as (s1 & HA & ?), H2 as (s2 & HB & ?); subst.
    - exists s1, s2. split_and!; [done..|]. by left.
    - exists s2, s1. split_and!; [done..|]. by right. }
  exists r, x, y. split_and!; try done.
  intros ->. unfold label_ne, label_eq in Hne. by rewrite bool_decide_eq_true_2 in Hne.
Qed.

(** The first match can be read off the view of the table. *)
Lemma first_match_view kind rows c1 c2 :
  first_match kind rows c1 c2
  = match List.find (λ '(a, b, _), (label_eq a c1 && label_eq b c2) ||
                                   (label_eq a c2 && label_eq b c1))
                    (table_view kind rows) with
    | Some (_, _, p) => P p
    | None => ns
    end.
Proof.
  rewrite first_match_find. unfold table_view, pair_mask.
  induction rows as [|r rows IH]; [done|]. simpl.
  destruct (bool_decide (Contrast r = kind)); simpl; [|done].
  by destruct (_ || _).
Qed.

Lemma pair_matrix_view kind rows1 rows2 levels :
  table_view kind rows1 = table_view kind rows2 →
  pair_matrix kind rows1 levels = pair_matrix kind rows2 levels.
Proof.
  intros Hview. unfold pair_matrix. apply foldl_pointwise. intros m [a b].
  unfold store_pair. simpl. by rewrite !first_match_view, Hview.
Qed.

End entries.

(** X8: the keys of a comparison matrix are decided by the level list
    alone, whatever the table holds: a key is present exactly when it is
    rendered by an ordered pair of levels that [!=] tells apart. *)
Theorem matrix_keys_are_level_pairs
    (rows : list PosthocRow) (fixed : label) (levels : list label) (k : string) :
  (is_Some (compare_conditions_within_groups rows fixed levels !! k) ↔
   ∃ a b, a ∈ levels ∧ b ∈ levels ∧ label_ne a b = true ∧ pair_key a b = k) ∧
  (is_Some (compare_groups_within_conditions rows fixed levels !! k) ↔
   ∃ a b, a ∈ levels ∧ b ∈ levels ∧ label_ne a b = true ∧ pair_key a b = k).
Proof.
  rewrite compare_conditions_pair_matrix, compare_groups_pair_matrix.
  split; apply pair_matrix_is_Some.
Qed.

(** X9: a matrix never invents a p-value.  An entry that is not the
    sentinel is the uncorrected p-value of a row of the table that belongs
    to the builder's own contrast and compares two distinct levels of the
    level list, in one order or the other, and the key names those two
    levels. *)
Theorem matrix_entries_come_from_table
    (rows : list PosthocRow) (fixed : label) (levels : list label) (k : string) (p : float) :
  (compare_conditions_within_groups rows fixed levels !! k = Some (P p) →
   ∃ r (a b : string),
     r ∈ rows ∧ Contrast r = "Condition" ∧ p_unc r = p ∧
     Some a ∈ levels ∧ Some b ∈ levels ∧ a ≠ b ∧
     ((A r = Some a ∧ B r = Some b) ∨ (A r = Some b ∧ B r = Some a)) ∧
     k = a +:+ " vs " +:+ b) ∧
  (compare_groups_within_conditions rows fixed levels !! k = Some (P p) →
   ∃ r (a b : string),
     r ∈ rows ∧ Contrast r = "Group" ∧ p_unc r = p ∧
     Some a ∈ levels ∧ Some b ∈ levels ∧ a ≠ b ∧
     ((A r = Some a ∧ B r = Some b) ∨ (A r = Some b ∧ B r = Some a)) ∧
     k = a +:+ " vs " +:+ b).
Proof.
  rewrite compare_conditions_pair_matrix, compare_groups_pair_matrix.
  split; apply pair_matrix_entry.
Qed.

Lemma matrix_entries_come_from_table_witness :
  ∃ r (a b : string),
    r ∈ Sample.pairwise ∧ Contrast r = "Condition" ∧ p_unc r = 0.02%float ∧
    Some a ∈ [Some "pre"; Some "post"] ∧ Some b ∈ [Some "pre"; Some "post"] ∧ a ≠ b ∧
    ((A r = Some a ∧ B r = Some b) ∨ (A r = Some b ∧ B r = Some a)) ∧
    "pre vs post" = a +:+ " vs " +:+ b.
Proof.
  apply (proj1 (matrix_entries_come_from_table Sample.pairwise None
                  [Some "pre"; Some "post"] "pre vs post" 0.02)).
  vm_compute. reflexivity.
Defined.

(** X10: a matrix depends on the table only through the rows of its own
    contrast and, of those, only through the levels A and B and the
    uncorrected p-value.  Rows of other contrasts, the corrected p-values
    and the test statistics can change freely without changing a matrix. *)
Theorem matrices_read_own_contrast_only
    (rows1 rows2 : list PosthocRow) (fixed1 fixed2 : label) (levels : list label) :
  (table_view "Condition" rows1 = table_view "Condition" rows2 →
   compare_conditions_within_groups rows1 fixed1 levels
   = compare_conditions_within_groups rows2 fixed2 levels) ∧
  (table_view "Group" rows1 = table_view "Group" rows2 →
   compare_groups_within_conditions rows1 fixed1 levels
   = compare_groups_within_conditions rows2 fixed2 levels).
Proof.
  rewrite !compare_conditions_pair_matrix, !compare_groups_pair_matrix.
  split; apply pair_matrix_view.
Qed.

Lemma matrices_read_own_contrast_only_witness :
  compare_conditions_within_groups Sample.pairwise (Some "ctl") [Some "pre"; Some "post"]
  = compare_conditions_within_groups
      [ {| Contrast := "Condition"; A := Some "post"; B := Some "pre";
           T := 9; p_unc := 0.02; p_corr := 1 |} ]
      (Some "trt") [Some "pre"; Some "post"].
Proof.
  apply (proj1 (matrices_read_own_contrast_only Sample.pairwise
                  [ {| Contrast := "Condition"; A := Some "post"; B := Some "pre";
                       T := 9; p_unc := 0.02; p_corr := 1 |} ]
                  (Some "ctl") (Some "trt") [Some "pre"; Some "post"])).
  vm_compute. reflexivity.
Defined.

(** ** The gate on every binary64 value *)

Lemma SFcompare_refl (x : spec_float) : x ≠ S754_nan → SFcompare x x = Some Eq.
Proof.
  destruct x as [s|s| |s m e]; intros Hx; simpl; try done.
  - by destruct s.
  - rewrite Z.compare_refl, Pos.compare_cont_refl. by destruct s.
Qed.

Lemma SFcompare_None (x y : spec_float) :
  SFcompare x y = None ↔ x = S754_nan ∨ y = S754_nan.
Proof.
  destruct x as [sx|sx| |sx mx ex], y as [sy|sy| |sy my ey]; simpl;
    split; try done; try (by intros [|]); auto.
Qed.

Lemma is_nan_spec (p : float) : PrimFloat.is_nan p = true ↔ Prim2SF p = S754_nan.
Proof.
  unfold PrimFloat.is_nan. rewrite FloatAxioms.eqb_spec. unfold SFeqb. split.
  - intros Hp. destruct (Prim2SF p) as [s|s| |s m e] eqn:Hx; [| |done|];
      by rewrite SFcompare_refl in Hp.
  - by intros ->.
Qed.

Lemma float_not_ltb (p c : float) :
  PrimFloat.is_nan c = false →
  PrimFloat.ltb p c = false ↔ PrimFloat.leb c p = true ∨ PrimFloat.is_nan p = true.
Proof.
  intros Hc. rewrite is_nan_spec.
  assert (Prim2SF c ≠ S754_nan) as Hc'.
  { intros Hnan%is_nan_spec. congruence. }
  rewrite leb_spec, ltb_spec. unfold SFleb, SFltb.
  rewrite (SFcompare_antisym (Prim2SF p) (Prim2SF c)).
  destruct (SFcompare (Prim2SF p) (Prim2SF c)) as [[]|] eqn:Hcmp; simpl.
  - split; auto.
  - split; [done|]. intros [|Hnan]; [done|].
    assert (SFcompare (Prim2SF p) (Prim2SF c) = None) as Hnone; [|congruence].
    apply SFcompare_None. by left.
  - split; auto.
  - split; [|done]. intros _. right.
    by apply SFcompare_None in Hcmp as [|].
Qed.

(** X11: the post-hoc step returns its five [None]s exactly for the
    interaction p-values that are at least 0.001 and for a p-value that is
    NaN: an undefined p-value skips the post-hoc tests, it is not an error. *)
Theorem posthoc_skipped_iff_not_below_or_nan `{Pingouin} `{PyStr}
    (id_column group_col condition_col dv_col : string) (p : float) (st : state) :
  all_absent (run_posthoc_tests_if_interaction_significant
                id_column group_col condition_col dv_col p st).1 = true
  ↔ PrimFloat.leb 0.001 p = true ∨ PrimFloat.is_nan p = true.
Proof.
  rewrite <-(float_not_ltb p 0.001) by done.
  destruct (PrimFloat.ltb p 0.001) eqn:Hp.
  - rewrite posthoc_entered by done.
    destruct (str_usable (column group_col (df st))); [|done].
    destruct (str_usable (column condition_col (normalize_col group_col <$> df st)));
      [|done].
    simpl. by destruct (pg_pairwise_tests _ _ _ _ _ _).
  - by rewrite posthoc_skipped.
Qed.

(** ** The two listwise deletions *)

Section deletions.
Implicit Types (r : Row) (cols : list string) (data : DataFrame).

Lemma at_col_select cols r (c : string) : c ∈ cols → at_col (select_row cols r) c = at_col r c.
Proof. intros Hc. unfold at_col at 1. by rewrite select_row_lookup, decide_True. Qed.

Lemma filter_filter_implied {X} (f g : X → bool) (l : list X) :
  (∀ x, x ∈ l → f x = true → g x = true) →
  List.filter f (List.filter g l) = List.filter f l.
Proof.
  induction l as [|x l IH]; intros Himp; [done|]. simpl.
  destruct (g x) eqn:Hg; simpl.
  - rewrite IH; [done|]. intros y Hy. apply Himp. by right.
  - destruct (f x) eqn:Hf.
    + rewrite Himp in Hg; [done|by left|done].
    + apply IH. intros y Hy. apply Himp. by right.
Qed.

Lemma filter_sublist {X} (f : X → bool) (l : list X) : List.filter f l `sublist_of` l.
Proof.
  induction l as [|x l IH]; [constructor|]. simpl.
  destruct (f x); by constructor.
Qed.

Lemma posthoc_data_elem data (id_column group_col condition_col dv_col : string) r' :
  r' ∈ posthoc_data data id_column group_col condition_col dv_col ↔
  ∃ r, r ∈ data ∧ r' = select_row [id_column; group_col; condition_col; dv_col] r ∧
       isna (at_col r dv_col) = false.
Proof.
  unfold posthoc_data, dropna_subset, select.
  rewrite list_elem_of_In, filter_In, <-list_elem_of_In, list_elem_of_fmap. simpl.
  rewrite andb_true_r, negb_true_iff. split.
  - intros [(r & -> & Hr) Hdv]. exists r. split_and!; [done..|].
    rewrite at_col_select in Hdv; [done|]. set_solver.
  - intros (r & Hr & -> & Hdv). split; [by exists r|].
    rewrite at_col_select; [done|]. set_solver.
Qed.

End deletions.

(** X12: on one and the same frame, the data of the model fit is the data
    of the post-hoc tests with the incomplete rows removed.  Every
    observation the mixed model is fitted on is also given to the pairwise
    tests, in the same order; the pairwise tests get in addition the
    observations that have the dependent variable but lack a subject
    identifier or a label. *)
Theorem anova_input_within_posthoc_input
    (data : DataFrame) (id_column group_col condition_col dv_col : string) :
  aov_data data id_column group_col condition_col dv_col
  = dropna (posthoc_data data id_column group_col condition_col dv_col) ∧
  aov_data data id_column group_col condition_col dv_col
    `sublist_of` posthoc_data data id_column group_col condition_col dv_col.
Proof.
  assert (aov_data data id_column group_col condition_col dv_col
          = dropna (posthoc_data data id_column group_col condition_col dv_col)) as Heq.
  { unfold aov_data, posthoc_data, dropna, dropna_subset.
    rewrite filter_filter_implied; [done|].
    intros r' (r & -> & Hr)%list_elem_of_fmap Hcomplete. simpl.
    rewrite row_complete_select in Hcomplete. simpl in Hcomplete.
    rewrite at_col_select by set_solver.
    by destruct (isna (at_col r id_column)), (isna (at_col r group_col)),
         (isna (at_col r condition_col)), (isna (at_col r dv_col)). }
  split; [done|]. rewrite Heq. apply filter_sublist.
Qed.

(** ** The sphericity test in the loop *)

(** X13: a failure of the sphericity test discards a model that was fitted.
    When [pg.mixed_anova] has returned its table and [pg.sphericity] then
    raises, the iteration raises that exception and writes no sheet, not
    even the ANOVA sheet. *)
Theorem sphericity_failure_discards_anova `{Pingouin} `{PyStr} `{ExcelWriter}
    (dv_col : string) (st : state) (aov : list AnovaRow) (e : exn) :
  pg_mixed_anova dv_col "Condition" "Group" "ID"
    (aov_data (df st) "ID" "Group" "Condition" dv_col) "auto" = Ok aov →
  pg_sphericity (aov_data (df st) "ID" "Group" "Condition" dv_col)
    dv_col "Condition" "ID" = Raise e →
  loop_body dv_col st
  = (Raise e, {| df := df st; sheets := sheets st;
                 stdout := stdout st ++ [RunningAnova dv_col];
                 blanks := blanks st |}).
Proof.
  intros Hfit Hsphericity. apply body_anova_fails.
  unfold run_mixed_anova, check_sphericity, mbind, result_bind.
  by rewrite Hfit, Hsphericity.
Qed.

Lemma sphericity_failure_discards_anova_witness :
  @loop_body (with_sphericity Sample.stub (λ _ _ _ _, Raise "LinAlgError"))
    Sample.ascii_str Sample.title_checker
    "Fz_Cz" (Sample.start Sample.clean_frame)
  = (Raise "LinAlgError",
     {| df := Sample.clean_frame; sheets := []; stdout := [RunningAnova "Fz_Cz"];
        blanks := 0 |}).
Proof.
  apply (@sphericity_failure_discards_anova
           (with_sphericity Sample.stub (λ _ _ _ _, Raise "LinAlgError"))
           Sample.ascii_str Sample.title_checker
           "Fz_Cz" (Sample.start Sample.clean_frame)
           [Sample.effect "Group" 0.5; Sample.effect "Condition" 0.5;
            Sample.effect "Interaction" 0.0005]).
  - vm_compute. reflexivity.
  - reflexivity.
Defined.

(** X14: the result of the sphericity test is computed and never used.
    Two statistics libraries that differ only in what their sphericity test
    returns give the same iteration (the same sheets, messages, frame and
    outcome) whenever both tests return at all. *)
Theorem sphericity_result_is_unused (pg : Pingouin) (ps : PyStr) (xw : ExcelWriter)
    (sphericity_test : DataFrame → string → string → string → result SpherResults)
    (dv_col : string) (st : state) :
  is_raise (@pg_sphericity pg (aov_data (df st) "ID" "Group" "Condition" dv_col)
              dv_col "Condition" "ID") = false →
  is_raise (sphericity_test (aov_data (df st) "ID" "Group" "Condition" dv_col)
              dv_col "Condition" "ID") = false →
  @loop_body (with_sphericity pg sphericity_test) ps xw dv_col st
  = @loop_body pg ps xw dv_col st.
Proof.
  intros Hold Hnew.
  destruct (@pg_mixed_anova pg dv_col "Condition" "Group" "ID"
              (aov_data (df st) "ID" "Group" "Condition" dv_col) "auto")
    as [aov|e] eqn:Hfit.
  2: { rewrite !body_anova_fails with (e := e); [done|..];
         unfold run_mixed_anova, mbind, result_bind; simpl; by rewrite Hfit. }
  destruct (@pg_sphericity pg (aov_data (df st) "ID" "Group" "Condition" dv_col)
              dv_col "Condition" "ID") as [s1|e1] eqn:Hs1; [|done].
  destruct (sphericity_test (aov_data (df st) "ID" "Group" "Condition" dv_col)
              dv_col "Condition" "ID") as [s2|e2] eqn:Hs2; [|done].
  assert (@run_mixed_anova pg (df st) "ID" "Group" "Condition" dv_col = Ok (aov, s1))
    as Hrun1.
  { unfold run_mixed_anova, check_sphericity, mbind, result_bind. by rewrite Hfit, Hs1. }
  assert (@run_mixed_anova (with_sphericity pg sphericity_test)
            (df st) "ID" "Group" "Condition" dv_col = Ok (aov, s2)) as Hrun2.
  { unfold run_mixed_anova, check_sphericity, mbind, result_bind. simpl.
    by rewrite Hfit, Hs2. }
  destruct (to_excel_error (sheets st) (dv_col +:+ "_Mixed_ANOVA") (TAnova aov))
    as [[e blank_left]|] eqn:Hw.
  { rewrite (@body_anova_refused pg _ _ _ _ _ _ _ _ Hrun1 Hw).
    by rewrite (@body_anova_refused (with_sphericity pg sphericity_test)
                  _ _ _ _ _ _ _ _ Hrun2 Hw). }
  destruct (interaction_row aov) as [r|] eqn:Hrow.
  - rewrite (@body_interaction pg _ _ _ _ _ _ _ Hrun1 Hw Hrow).
    by rewrite (@body_interaction (with_sphericity pg sphericity_test)
                  _ _ _ _ _ _ _ Hrun2 Hw Hrow).
  - rewrite (@body_no_interaction pg _ _ _ _ _ _ Hrun1 Hw Hrow).
    by rewrite (@body_no_interaction (with_sphericity pg sphericity_test)
                  _ _ _ _ _ _ Hrun2 Hw Hrow).
Qed.

Lemma sphericity_result_is_unused_witness :
  @loop_body (with_sphericity Sample.stub
                (λ _ _ _ _, Ok {| spher := false; W := 0; chi2 := 9; dof := 2; pval := 0 |}))
    Sample.ascii_str Sample.title_checker "Fz_Cz" (Sample.start Sample.clean_frame)
  = @loop_body Sample.stub Sample.ascii_str Sample.title_checker
      "Fz_Cz" (Sample.start Sample.clean_frame).
Proof.
  apply (sphericity_result_is_unused Sample.stub Sample.ascii_str Sample.title_checker
           (λ _ _ _ _, Ok {| spher := false; W := 0; chi2 := 9; dof := 2; pval := 0 |})
           "Fz_Cz" (Sample.start Sample.clean_frame)).
  - vm_compute. reflexivity.
  - reflexivity.
Defined.

(** ** One matrix per observed level *)

Section levels.
Context `{PyStr}.
Implicit Types (r : Row) (data : DataFrame) (lvl : label).

Lemma elem_of_unique (l : list label) lvl : lvl ∈ unique l ↔ lvl ∈ l.
Proof. unfold unique. by rewrite elem_of_reverse, elem_of_remove_dups, elem_of_reverse. Qed.

Lemma at_col_normalized_group (group_col condition_col : string) r :
  group_col ≠ condition_col →
  at_col (normalize_col condition_col (normalize_col group_col r)) group_col
  = str_strip_lower (at_col r group_col).
Proof.
  intros Hne. unfold at_col at 1, normalize_col at 1.
  rewrite lookup_insert_ne by done. unfold normalize_col. by rewrite lookup_insert_eq.
Qed.

Lemma at_col_normalized_condition (group_col condition_col : string) r :
  group_col ≠ condition_col →
  at_col (normalize_col condition_col (normalize_col group_col r)) condition_col
  = str_strip_lower (at_col r condition_col).
Proof.
  intros Hne. unfold at_col at 1, normalize_col at 1. rewrite lookup_insert_eq. simpl.
  f_equal. unfold at_col, normalize_col. by rewrite lookup_insert_ne.
Qed.

Lemma at_col_normalized_other (group_col condition_col col : string) r :
  col ≠ group_col → col ≠ condition_col →
  at_col (normalize_col condition_col (normalize_col group_col r)) col = at_col r col.
Proof. intros Hg Hc. unfold at_col, normalize_col. by rewrite !lookup_insert_ne. Qed.

(** The levels the post-hoc step finds in a label column. *)
Lemma posthoc_levels data (id_column group_col condition_col dv_col col : string) lvl :
  group_col ≠ condition_col →
  dv_col ≠ group_col → dv_col ≠ condition_col →
  col = group_col ∨ col = condition_col →
  lvl ∈ levels_of col (posthoc_data (normalized group_col condition_col data)
                         id_column group_col condition_col dv_col) ↔
  ∃ r, r ∈ data ∧ as_label (str_strip_lower (at_col r col)) = lvl ∧
       isna (at_col r dv_col) = false.
Proof.
  intros Hne Hg Hc Hcol. unfold levels_of. rewrite elem_of_unique, list_elem_of_fmap.
  assert (col ∈ [id_column; group_col; condition_col; dv_col]) as Hin.
  { destruct Hcol as [->| ->]; set_solver. }
  assert (∀ r, at_col (normalize_col condition_col (normalize_col group_col r)) col
               = str_strip_lower (at_col r col)) as Hlabel.
  { intros r. destruct Hcol as [->| ->];
      [by apply at_col_normalized_group|by apply at_col_normalized_condition]. }
  split.
  - intros (r' & -> & (rn & Hrn & -> & Hdv)%posthoc_data_elem).
    unfold normalized in Hrn. rewrite <-list_fmap_compose in Hrn.
    apply list_elem_of_fmap in Hrn as (r & -> & Hr). simpl in *.
    exists r. rewrite at_col_select, Hlabel by done.
    by rewrite at_col_normalized_other in Hdv.
  - intros (r & Hr & <- & Hdv).
    exists (select_row [id_column; group_col; condition_col; dv_col]
              (normalize_col condition_col (normalize_col group_col r))).
    split; [by rewrite at_col_select, Hlabel|].
    apply posthoc_data_elem.
    exists (normalize_col condition_col (normalize_col group_col r)). split_and!; [|done|].
    + unfold normalized. rewrite <-list_fmap_compose. apply list_elem_of_fmap. by exists r.
    + by rewrite at_col_normalized_other.
Qed.

Lemma filled_is_Some {V} (build : label → V) (keys : list label) lvl :
  is_Some (filled build keys !! lvl) ↔ lvl ∈ keys.
Proof.
  unfold filled. rewrite foldl_insert_lookup. case_decide as Hin.
  - split; [done|]. by eexists.
  - rewrite lookup_empty. split; [by intros [? [=]]|done].
Qed.

End levels.

(** The group and condition matrices of a run that returned them. *)
Lemma posthoc_ok_matrices `{Pingouin} `{PyStr}
    (id_column group_col condition_col dv_col : string) (p : float) (st st' : state)
    posthoc_results condition_comparisons group_comparisons interaction_comparisons means :
  run_posthoc_tests_if_interaction_significant id_column group_col condition_col dv_col p st
  = (Ok (posthoc_results, Some condition_comparisons, Some group_comparisons,
         interaction_comparisons, means), st') →
  let data := posthoc_data (normalized group_col condition_col (df st))
                id_column group_col condition_col dv_col in
  ∃ rows,
    condition_comparisons
    = filled (λ g, compare_conditions_within_groups rows g (levels_of condition_col data))
             (levels_of group_col data) ∧
    group_comparisons
    = filled (λ c, compare_groups_within_conditions rows c (levels_of group_col data))
             (levels_of condition_col data) ∧
    means = Some (calculate_means data group_col condition_col dv_col).
Proof.
  intros Hrun data. apply posthoc_ok_inv in Hrun as (-> & rows & _ & Htables).
  unfold posthoc_tables in Htables.
  pose proof (f_equal (λ t, t.1.1.1.2) Htables) as Hcc.
  pose proof (f_equal (λ t, t.1.1.2) Htables) as Hgc.
  pose proof (f_equal (λ t, t.2) Htables) as Hmeans.
  simpl in Hcc, Hgc, Hmeans. apply (inj Some) in Hcc, Hgc.
  by exists rows.
Qed.

(** X15: a post-hoc run keeps one condition-pair matrix for each group
    level and one group-pair matrix for each condition level that it
    observes, where a level is observed when some row of the caller's frame
    has it as its trimmed, lower-cased label and has a value for the
    dependent variable.  Labels with the same trimmed, lower-cased form
    share one matrix; a level seen only in rows without a value has none;
    rows with a missing label contribute the missing level.  This is stated
    for three distinct column names, as in the script. *)
Theorem matrices_kept_per_observed_level `{Pingouin} `{PyStr}
    (id_column group_col condition_col dv_col : string) (p : float) (st st' : state)
    posthoc_results condition_comparisons group_comparisons interaction_comparisons means
    (lvl : label) :
  group_col ≠ condition_col → dv_col ≠ group_col → dv_col ≠ condition_col →
  run_posthoc_tests_if_interaction_significant id_column group_col condition_col dv_col p st
  = (Ok (posthoc_results, Some condition_comparisons, Some group_comparisons,
         interaction_comparisons, means), st') →
  (is_Some (condition_comparisons !! lvl) ↔
   ∃ r, r ∈ df st ∧ as_label (str_strip_lower (at_col r group_col)) = lvl ∧
        isna (at_col r dv_col) = false) ∧
  (is_Some (group_comparisons !! lvl) ↔
   ∃ r, r ∈ df st ∧ as_label (str_strip_lower (at_col r condition_col)) = lvl ∧
        isna (at_col r dv_col) = false).
Proof.
  intros Hne Hg Hc Hrun.
  apply posthoc_ok_matrices in Hrun as (rows & -> & -> & _).
  rewrite !filled_is_Some. split; apply posthoc_levels; auto.
Qed.

Lemma matrices_kept_per_observed_level_witness :
  (is_Some (filled (λ g, compare_conditions_within_groups Sample.pairwise g
                           [Some "pre"; Some "post"])
                   [Some "ctl"; Some "trt"] !! Some "ctl") ↔
   ∃ r, r ∈ df (Sample.start Sample.frame) ∧
        as_label (str_strip_lower (at_col r "Group")) = Some "ctl" ∧
        isna (at_col r "Fz_Cz") = false) ∧
  (is_Some (filled (λ c, compare_groups_within_conditions Sample.pairwise c
                           [Some "ctl"; Some "trt"])
                   [Some "pre"; Some "post"] !! Some "ctl") ↔
   ∃ r, r ∈ df (Sample.start Sample.frame) ∧
        as_label (str_strip_lower (at_col r "Condition")) = Some "ctl" ∧
        isna (at_col r "Fz_Cz") = false).
Proof.
  refine (matrices_kept_per_observed_level "ID" "Group" "Condition" "Fz_Cz" 0.0005%float
            (Sample.start Sample.frame) _ _ _ _ _ _ (Some "ctl") _ _ _ _).
  - done.
  - done.
  - done.
  - vm_compute. reflexivity.
Defined.

(** ** The means table beside the matrices *)

(** X16: the tables of one post-hoc run agree on their levels.  Every row
    label of the means table (a group) has a condition-pair matrix, and
    every column label (a condition) has a group-pair matrix. *)
Theorem means_labels_have_matrices `{Pingouin} `{PyStr}
    (id_column group_col condition_col dv_col : string) (p : float) (st st' : state)
    posthoc_results condition_comparisons group_comparisons interaction_comparisons means
    (g c : string) :
  run_posthoc_tests_if_interaction_significant id_column group_col condition_col dv_col p st
  = (Ok (posthoc_results, Some condition_comparisons, Some group_comparisons,
         interaction_comparisons, Some means), st') →
  (g ∈ index means → is_Some (condition_comparisons !! Some g)) ∧
  (c ∈ columns means → is_Some (group_comparisons !! Some c)).
Proof.
  intros Hrun.
  apply posthoc_ok_matrices in Hrun as (rows & -> & -> & [= ->]).
  rewrite !filled_is_Some. unfold levels_of. rewrite !elem_of_unique. split.
  - intros ([g' c'] & -> & (r & Hr & Hkey)%list_elem_of_omap)%calculate_means_index%list_elem_of_fmap.
    apply list_elem_of_fmap. exists r. split; [|done].
    unfold group_key in Hkey.
    destruct (as_label (at_col r group_col)), (as_label (at_col r condition_col));
      by simplify_eq.
  - intros ([g' c'] & -> & (r & Hr & Hkey)%list_elem_of_omap)%calculate_means_columns%list_elem_of_fmap.
    apply list_elem_of_fmap. exists r. split; [|done].
    unfold group_key in Hkey.
    destruct (as_label (at_col r group_col)), (as_label (at_col r condition_col));
      by simplify_eq.
Qed.

Lemma means_labels_have_matrices_witness :
  ("ctl" ∈ ["ctl"; "trt"] →
   is_Some (filled (λ g, compare_conditions_within_groups Sample.pairwise g
                           [Some "pre"; Some "post"])
                   [Some "ctl"; Some "trt"] !! Some "ctl")) ∧
  ("pre" ∈ ["post"; "pre"] →
   is_Some (filled (λ c, compare_groups_within_conditions Sample.pairwise c
                           [Some "ctl"; Some "trt"])
                   [Some "pre"; Some "post"] !! Some "pre")).
Proof.
  refine (means_labels_have_matrices "ID" "Group" "Condition" "Fz_Cz" 0.0005%float
            (Sample.start Sample.frame) _ _ _ _ _
            {| index := ["ctl"; "trt"]; columns := ["post"; "pre"];
               cells := _ |} "ctl" "pre" _).
  vm_compute. reflexivity.
Defined.

(** ** A significant interaction, end to end *)

(** X17: a dependent variable whose interaction p-value is below 0.001,
    whose label columns hold strings, whose pairwise tests succeed and
    whose six sheets the writer accepts ends its iteration normally with
    six sheets appended in this order: the ANOVA table, the pairwise table
    as the library returned it, one condition-pair matrix per group level
    of the cleaned data, one group-pair matrix per condition level, the
    interaction rows of the pairwise table, and the means; the caller's
    frame is left normalised and no blank sheet is added. *)
Theorem significant_interaction_writes_six_sheets `{Pingouin} `{PyStr} `{ExcelWriter}
    (dv_col : string) (st : state) (aov : list AnovaRow) (sphericity : SpherResults)
    (r : AnovaRow) (posthoc_results : list PosthocRow) :
  run_mixed_anova (df st) "ID" "Group" "Condition" dv_col = Ok (aov, sphericity) →
  interaction_row aov = Some r →
  PrimFloat.ltb (a_p_unc r) 0.001 = true →
  str_usable (column "Group" (df st)) = true →
  str_usable (column "Condition" (normalize_col "Group" <$> df st)) = true →
  pg_pairwise_tests dv_col "Condition" "Group" "ID"
    (posthoc_data (normalized "Group" "Condition" (df st)) "ID" "Group" "Condition" dv_col)
    "bonferroni" = Ok posthoc_results →
  accepted (sheets st)
    [ (dv_col +:+ "_Mixed_ANOVA", TAnova aov);
      (dv_col +:+ "_Posthoc_Comparisons", TPosthoc posthoc_results);
      (dv_col +:+ "_Condition_Comparisons",
       TMatrices
         (filled (λ g, compare_conditions_within_groups posthoc_results g
                         (levels_of "Condition"
                            (posthoc_data (normalized "Group" "Condition" (df st))
                               "ID" "Group" "Condition" dv_col)))
                 (levels_of "Group"
                    (posthoc_data (normalized "Group" "Condition" (df st))
                       "ID" "Group" "Condition" dv_col))));
      (dv_col +:+ "_Group_Comparisons",
       TMatrices
         (filled (λ c, compare_groups_within_conditions posthoc_results c
                         (levels_of "Group"
                            (posthoc_data (normalized "Group" "Condition" (df st))
                               "ID" "Group" "Condition" dv_col)))
                 (levels_of "Condition"
                    (posthoc_data (normalized "Group" "Condition" (df st))
                       "ID" "Group" "Condition" dv_col))));
      (dv_col +:+ "_Interaction_Comparisons",
       TInteraction
         ((λ row, {| i_A := A row; i_B := B row; i_p_unc := p_unc row;
                     i_p_corr := p_corr row |}) <$>
          List.filter (λ row, bool_decide (Contrast row = "Condition * Group"))
            posthoc_results));
      (dv_col +:+ "_Means",
       TMeans (calculate_means
                 (posthoc_data (normalized "Group" "Condition" (df st))
                    "ID" "Group" "Condition" dv_col) "Group" "Condition" dv_col)) ]
  = true →
  loop_body dv_col st
  = (Ok (),
     {| df := normalized "Group" "Condition" (df st);
        sheets := (sheets st ++
          [ (dv_col +:+ "_Mixed_ANOVA", TAnova aov);
            (dv_col +:+ "_Posthoc_Comparisons", TPosthoc posthoc_results);
            (dv_col +:+ "_Condition_Comparisons",
             TMatrices
               (filled (λ g, compare_conditions_within_groups posthoc_results g
                               (levels_of "Condition"
                                  (posthoc_data (normalized "Group" "Condition" (df st))
                                     "ID" "Group" "Condition" dv_col)))
                       (levels_of "Group"
                          (posthoc_data (normalized "Group" "Condition" (df st))
                             "ID" "Group" "Condition" dv_col))));
            (dv_col +:+ "_Group_Comparisons",
             TMatrices
               (filled (λ c, compare_groups_within_conditions posthoc_results c
                               (levels_of "Group"
                                  (posthoc_data (normalized "Group" "Condition" (df st))
                                     "ID" "Group" "Condition" dv_col)))
                       (levels_of "Condition"
                          (posthoc_data (normalized "Group" "Condition" (df st))
                             "ID" "Group" "Condition" dv_col))));
            (dv_col +:+ "_Interaction_Comparisons",
             TInteraction
               ((λ row, {| i_A := A row; i_B := B row; i_p_unc := p_unc row;
                           i_p_corr := p_corr row |}) <$>
                List.filter (λ row, bool_decide (Contrast row = "Condition * Group"))
                  posthoc_results));
            (dv_col +:+ "_Means",
             TMeans (calculate_means
                       (posthoc_data (normalized "Group" "Condition" (df st))
                          "ID" "Group" "Condition" dv_col) "Group" "Condition" dv_col)) ])%list;
        stdout := (stdout st ++
          [RunningAnova dv_col; RunningPosthoc dv_col (a_p_unc r)])%list;
        blanks := blanks st |}).
Proof.
  intros Hfit Hrow Hp Hg Hc Htests Hall.
  change (accepted (sheets st) (?first :: ?others) = true)
    with (match to_excel_error (sheets st) first.1 first.2 with
          | None => accepted (sheets st ++ [first]) others
          | Some _ => false
          end = true) in Hall.
  simpl in Hall.
  destruct (to_excel_error (sheets st) (dv_col +:+ "_Mixed_ANOVA") (TAnova aov))
    as [eb|] eqn:Hw; [done|].
  rewrite (body_posthoc _ _ _ _ _ _ Hfit Hw Hrow Hp Hg Hc Htests).
  rewrite write_sheets_accepted by done.
  unfold wrote, posthoc_sheets, posthoc_state, anova_written; simpl.
  by rewrite <-!app_assoc.
Qed.

Lemma significant_interaction_writes_six_sheets_witness :
  loop_body "Fz_Cz" (Sample.start Sample.frame)
  = (Ok (),
     {| df := Sample.clean_frame;
        sheets :=
          [ ("Fz_Cz_Mixed_ANOVA",
             TAnova [Sample.effect "Group" 0.5; Sample.effect "Condition" 0.5;
                     Sample.effect "Interaction" 0.0005]);
            ("Fz_Cz_Posthoc_Comparisons", TPosthoc Sample.pairwise);
            ("Fz_Cz_Condition_Comparisons",
             TMatrices
               (filled (λ g, compare_conditions_within_groups Sample.pairwise g
                               [Some "pre"; Some "post"])
                       [Some "ctl"; Some "trt"]));
            ("Fz_Cz_Group_Comparisons",
             TMatrices
               (filled (λ c, compare_groups_within_conditions Sample.pairwise c
                               [Some "ctl"; Some "trt"])
                       [Some "pre"; Some "post"]));
            ("Fz_Cz_Interaction_Comparisons",
             TInteraction
               [ {| i_A := Some "ctl"; i_B := Some "trt"; i_p_unc := 0.04; i_p_corr := 0.04 |};
                 {| i_A := Some "ctl"; i_B := Some "trt"; i_p_unc := 0.6; i_p_corr := 0.6 |} ]);
            ("Fz_Cz_Means",
             TMeans (calculate_means
                       (posthoc_data Sample.clean_frame "ID" "Group" "Condition" "Fz_Cz")
                       "Group" "Condition" "Fz_Cz")) ];
        stdout := [RunningAnova "Fz_Cz"; RunningPosthoc "Fz_Cz" 0.0005];
        blanks := 0 |}).
Proof.
  refine (eq_trans
            (significant_interaction_writes_six_sheets "Fz_Cz" (Sample.start Sample.frame)
               [Sample.effect "Group" 0.5; Sample.effect "Condition" 0.5;
                Sample.effect "Interaction" 0.0005]
               {| spher := true; W := 1; chi2 := 0; dof := 1; pval := 1 |}
               (Sample.effect "Interaction" 0.0005) Sample.pairwise _ _ _ _ _ _ _) _).
  - vm_compute. reflexivity.
  - vm_compute. reflexivity.
  - vm_compute. reflexivity.
  - vm_compute. reflexivity.
  - vm_compute. reflexivity.
  - vm_compute. reflexivity.
  - vm_compute. reflexivity.
  - vm_compute. reflexivity.
Defined.

(** ** A missing label among the levels *)

Lemma append_nil_l (t : string) : "" +:+ t = t.
Proof. reflexivity. Qed.

(** The key "nan vs nan" is rendered by "nan" and "nan" only. *)
Lemma key_nan_vs_nan (s t : string) :
  s +:+ " vs " +:+ t = "nan vs nan" → s = "nan" ∧ t = "nan".
Proof.
  do 11 (destruct s as [|? s];
         [rewrite append_nil_l; cbv [String.append]; by intros ?; simplify_eq
         |rewrite append_cons; intros [= -> Hkey]; revert Hkey]).
Qed.

Lemma label_eq_None_r (x : label) : label_eq x None = false.
Proof. by destruct x. Qed.

Lemma first_match_missing_level kind (rows : list PosthocRow) (a b : label) :
  a = None ∨ b = None → first_match kind rows a b = ns.
Proof.
  intros Hab. apply first_match_miss. intros r _. unfold pair_mask.
  destruct Hab as [-> | ->]; rewrite !label_eq_None_r;
    by rewrite ?andb_false_r, ?andb_false_l, ?orb_false_r, ?andb_false_r.
Qed.

Lemma pair_matrix_nan_vs_nan kind (rows : list PosthocRow) (levels : list label) :
  None ∈ levels → pair_matrix kind rows levels !! "nan vs nan" = Some ns.
Proof.
  intros Hnone. unfold pair_matrix.
  destruct (foldl_store_pair_lookup kind rows (list_prod levels levels) ∅
              "nan vs nan" ns) as [Hv|[_ Hfresh]]; [|done|].
  - intros a b _ Hne [Ha Hb]%key_nan_vs_nan.
    apply first_match_missing_level.
    destruct a as [x|], b as [y|]; auto. simpl in *. subst.
    by vm_compute in Hne.
  - exfalso. apply (Hfresh None None); [|done..]. by apply elem_of_pairs.
Qed.

(** X18: a missing label among the levels is compared with itself.  Since
    [nan != nan] holds, the pair (NaN, NaN) is not left out, and no row can
    match a NaN level: whenever the level list contains the missing label,
    both builders hold the sentinel under the key "nan vs nan". *)
Theorem missing_level_is_compared_with_itself
    (rows : list PosthocRow) (fixed : label) (levels : list label) :
  None ∈ levels →
  compare_conditions_within_groups rows fixed levels !! "nan vs nan" = Some ns ∧
  compare_groups_within_conditions rows fixed levels !! "nan vs nan" = Some ns.
Proof.
  intros Hnone. rewrite compare_conditions_pair_matrix, compare_groups_pair_matrix.
  split; by apply pair_matrix_nan_vs_nan.
Qed.

Lemma missing_level_is_compared_with_itself_witness :
  compare_conditions_within_groups Sample.pairwise None [Some "pre"; None]
    !! "nan vs nan" = Some ns ∧
  compare_groups_within_conditions Sample.pairwise None [Some "pre"; None]
    !! "nan vs nan" = Some ns.
Proof.
  apply (missing_level_is_compared_with_itself Sample.pairwise None [Some "pre"; None]).
  by right; left.
Defined.
